(** * bdpy.mri.roi: ROI flags for a brain-data container

    A shallow embedding of [src/bdpy/mri/roi.py] (Python 2, numpy) and the
    properties of its three functions [get_roiflag], [add_roimask] and
    [add_roilabel].

    Modelling conventions.
    - Numbers (coordinates, voxel values, vertex ids, flags) are exact
      integers [Z]; every comparison of the source is then total and exact.
      IEEE special values (NaN) are outside this model.
    - A numpy array of shape (3, N) is the list of its N columns, each a
      coordinate triple: [a[j,:]] is [row_of a j], [np.transpose(a)[k]] is
      the k-th element, [a.shape[1]] is the length.
    - Python exceptions are the [Raise] outcome; standard output is a list
      of lines; the container is mutated in place, so it lives in the
      [world] that every statement threads through.
    - [bdpy.BData], [bdpy.mri.load_mri] and nibabel's readers are not part
      of the embedded file: they are the fields of [Collaborators]. *)

From Stdlib Require Import ZArith Lia String Ascii List Bool.
From stdpp Require Import base list strings pretty.

Local Open Scope Z_scope.
Local Open Scope nat_scope.
Local Open Scope string_scope.
Local Open Scope list_scope.

(** ** Exceptions and outcomes *)

(** The exceptions this file can raise; their messages are left out.
    [AttributeError] is what [(a == b).all()] raises when [a == b] could
    not be evaluated elementwise and numpy fell back to the scalar
    [False]. *)
Inductive exn : Type :=
| ValueError
| TypeError
| IndexError
| AttributeError.

Inductive outcome (A : Type) : Type :=
| Ok (a : A)
| Raise (e : exn).
Arguments Ok {A} a.
Arguments Raise {A} e.

(** ** Data *)

Abbreviation coord := (Z * Z * Z)%type.
Abbreviation xyz_array := (list (Z * Z * Z)).
Abbreviation matrix := (list (list Z)).

(** A [str] or a list of [str]: the type of the [roi_mask], [label] and
    [vertex_data] arguments. *)
Inductive str_or_list : Type :=
| Str (s : string)
| StrList (l : list string).

(** What [load_mri] returns: voxel values, xyz and ijk coordinates. *)
Record mri : Type := Mri {
  mri_v : list Z;
  mri_xyz : xyz_array;
  mri_ijk : xyz_array
}.

(** What [nibabel.freesurfer.read_annot] returns. *)
Record annot : Type := Annot {
  annot_labels : list Z;
  annot_ctab : list (list Z);
  annot_names : list string
}.

(** The external collaborators of the module. *)
Class Collaborators : Type := {
  BData : Type;
  get_metadata : BData -> string -> str_or_list -> list Z;
  add_metadata : BData -> string -> list Z -> string -> str_or_list -> BData;
  load_mri : string -> mri;
  read_label : string -> list Z;
  read_annot : string -> annot
}.

(** ** Python and numpy primitives *)

Definition axis (j : nat) (c : coord) : Z :=
  match j with
  | 0 => c.1.1
  | 1 => c.1.2
  | _ => c.2
  end.

(** [a[j,:]] *)
Definition row_of (a : xyz_array) (j : nat) : list Z := map (axis j) a.

(** [np.array_equal] on two rows of a transposed (N, 3) array. *)
Definition array_equal (a b : coord) : bool :=
  (a.1.1 =? b.1.1)%Z && (a.1.2 =? b.1.2)%Z && (a.2 =? b.2)%Z.

(** The builtin [min] and [max]: they raise on an empty sequence. *)
Definition py_min (l : list Z) : outcome Z :=
  match l with
  | [] => Raise ValueError
  | x :: l' => Ok (foldl Z.min x l')
  end.

Definition py_max (l : list Z) : outcome Z :=
  match l with
  | [] => Raise ValueError
  | x :: l' => Ok (foldl Z.max x l')
  end.

(** [np.asarray(b, dtype=int)] *)
Definition as_int (b : list bool) : list Z :=
  map (fun x : bool => if x then 1%Z else 0%Z) b.

(** [np.sum(np.asarray(rows), axis=0)] *)
Definition np_sum_axis0 (rows : list (list Z)) : list Z :=
  match rows with
  | [] => []
  | r :: rs => foldl (zip_with Z.add) r rs
  end.

(** [np.where(b)[0]]: the indices of the true entries, ascending. *)
Fixpoint np_where_from (k : nat) (b : list bool) : list nat :=
  match b with
  | [] => []
  | x :: b' => if x then k :: np_where_from (S k) b' else np_where_from (S k) b'
  end.

Definition np_where (b : list bool) : list nat := np_where_from 0 b.

(** [np.any] of a list of booleans. *)
Definition np_any (b : list bool) : bool := existsb id b.

(** [np.zeros((k, n))] *)
Definition np_zeros (k n : nat) : matrix := replicate k (replicate n 0%Z).

(** [l[i]] for an index that is never negative. *)
Definition getitem {A} (l : list A) (i : nat) : outcome A :=
  match l !! i with
  | Some x => Ok x
  | None => Raise IndexError
  end.

(** [m[i][j] = v] *)
Definition setitem2 (m : matrix) (i j : nat) (v : Z) : outcome matrix :=
  match m !! i with
  | Some r => if decide (j < length r) then Ok (<[i := <[j := v]> r]> m)
              else Raise IndexError
  | None => Raise IndexError
  end.

(** [np.vstack(rows)] of 1-d arrays: it needs at least one array, and all
    of one length. *)
Definition np_vstack (rows : list (list Z)) : outcome matrix :=
  match rows with
  | [] => Raise ValueError
  | r :: rs =>
      if forallb (fun r' => (length r' =? length r)%nat) rs then Ok rows
      else Raise ValueError
  end.

(** [np.vstack([x, y, z])] read as a (3, N) coordinate array. *)
Fixpoint zip3 (x y z : list Z) : xyz_array :=
  match x, y, z with
  | a :: x', b :: y', c :: z' => (a, b, c) :: zip3 x' y' z'
  | _, _, _ => []
  end.

Definition np_vstack3 (x y z : list Z) : outcome xyz_array :=
  if ((length y =? length x) && (length z =? length x))%nat then Ok (zip3 x y z)
  else Raise ValueError.

(** [a[:, b]] with a boolean index [b]: one boolean per column. *)
Fixpoint select_columns (a : xyz_array) (b : list bool) : xyz_array :=
  match a, b with
  | c :: a', x :: b' => if x then c :: select_columns a' b' else select_columns a' b'
  | _, _ => []
  end.

(** numpy refuses a boolean index whose length is not the number of
    columns. *)
Definition bool_index (a : xyz_array) (b : list bool) : outcome xyz_array :=
  if (length b =? length a)%nat then Ok (select_columns a b) else Raise IndexError.

(** [(a == b).all()] on two arrays of shapes (3, n) and (3, m).  The
    comparison broadcasts when one of them has a single column.  When the
    shapes are incompatible, the numpy releases that run this Python 2
    module give the scalar [False] for [a == b], which has no method [all];
    later releases raise at [a == b] itself.  Line 49 raises in both. *)
Definition eq_all (a b : xyz_array) : outcome bool :=
  if (length a =? length b)%nat then Ok (forallb id (zip_with array_equal a b))
  else match a, b with
       | [c], _ => Ok (forallb (array_equal c) b)
       | _, [c] => Ok (forallb (fun d => array_equal d c) a)
       | _, _ => Raise AttributeError
       end.

(** [x in v] for a string [x]: a substring test on a [str], a membership
    test on a list. *)
Fixpoint str_contains (sub s : string) : bool :=
  String.prefix sub s ||
  match s with
  | EmptyString => false
  | String _ s' => str_contains sub s'
  end.

Definition py_in (x : string) (v : str_or_list) : bool :=
  match v with
  | Str s => str_contains x s
  | StrList l => existsb (String.eqb x) l
  end.

(** [s.replace(old, '')] for a non-empty [old]: [skip] counts the
    characters of a match that are still to be dropped. *)
Fixpoint remove_all_from (skip : nat) (old s : string) : string :=
  match s with
  | EmptyString => EmptyString
  | String c s' =>
      match skip with
      | S k => remove_all_from k old s'
      | 0 => if String.prefix old s
             then remove_all_from (String.length old - 1) old s'
             else String c (remove_all_from 0 old s')
      end
  end.

Definition remove_all (old s : string) : string := remove_all_from 0 old s.

(** [s.rfind(c)] *)
Fixpoint rfind (c : ascii) (s : string) : option nat :=
  match s with
  | EmptyString => None
  | String a s' =>
      match rfind c s' with
      | Some k => Some (S k)
      | None => if Ascii.eqb a c then Some 0 else None
      end
  end.

Definition drop_string (n : nat) (s : string) : string :=
  String.substring n (String.length s - n) s.

(** [os.path.basename] (posix) *)
Definition basename (p : string) : string :=
  match rfind "/" p with
  | Some k => drop_string (S k) p
  | None => p
  end.

(** [os.path.splitext] (posix): the extension starts at the last dot of
    the last path component, leading dots of the component not counted. *)
Definition splitext (p : string) : string * string :=
  let start := match rfind "/" p with Some k => S k | None => 0 end in
  match rfind "." p with
  | Some d =>
      if decide (start <= d) then
        if forallb (Ascii.eqb ".") (list_ascii_of_string (String.substring start (d - start) p))
        then (p, "")
        else (String.substring 0 d p, drop_string d p)
      else (p, "")
  | None => (p, "")
  end.

(** [sum] of a sequence of integers. *)
Definition py_sum (l : list Z) : Z := foldl Z.add 0%Z l.

(** ** The world: container and standard output *)

Record world (B : Type) : Type := World {
  w_bdata : B;
  w_stdout : list string
}.
Arguments World {B} w_bdata w_stdout.
Arguments w_bdata {B} w.
Arguments w_stdout {B} w.

(** Statements: they read and change the world and may raise.  What was
    printed or written before an exception stays. *)
Definition M (B A : Type) : Type := world B -> outcome A * world B.

Definition ret {B A} (a : A) : M B A := fun w => (Ok a, w).

Definition bind {B A A'} (m : M B A) (k : A -> M B A') : M B A' :=
  fun w =>
    match m w with
    | (Ok a, w') => k a w'
    | (Raise e, w') => (Raise e, w')
    end.

Definition lift {B A} (o : outcome A) : M B A := fun w => (o, w).

Definition raise {B A} (e : exn) : M B A := fun w => (Raise e, w).

Definition print {B} (line : string) : M B unit :=
  fun w => (Ok tt, World (w_bdata w) (w_stdout w ++ [line])).

Notation "x <- c1 ;; c2" := (bind c1 (fun x => c2))
  (at level 100, c1 at next level, right associativity).
Notation "c1 ;;; c2" := (bind c1 (fun _ => c2))
  (at level 100, right associativity).

(** A [for] loop over [l] that updates the variable [a]. *)
Fixpoint for_each {B A X} (l : list X) (a : A) (body : A -> X -> M B A) : M B A :=
  match l with
  | [] => ret a
  | x :: l' => a' <- body a x ;; for_each l' a' body
  end.

(** A list comprehension whose elements may raise. *)
Fixpoint comprehension {B A X} (l : list X) (f : X -> M B A) : M B (list A) :=
  match l with
  | [] => ret []
  | x :: l' => a <- f x ;; r <- comprehension l' f ;; ret (a :: r)
  end.

(** [range(n)] *)
Definition range (n : nat) : list nat := seq 0 n.

(** ** get_roiflag *)

Section GetRoiflag.
Context {B : Type}.

(** Lines 107-116: the six range conditions of one ROI. *)
Definition range_conditions (roi epi_xyz_array : xyz_array) : M B (list (list Z)) :=
  for_each (range 3) [] (fun range_list j =>
    min_val <- lift (py_min (row_of roi j)) ;;
    max_val <- lift (py_max (row_of roi j)) ;;
    let min_range := map (fun v => (min_val <=? v)%Z) (row_of epi_xyz_array j) in
    let max_range := map (fun v => (v <=? max_val)%Z) (row_of epi_xyz_array j) in
    ret (range_list ++ [as_int min_range] ++ [as_int max_range])).

(** Lines 123-127: exact matching of the voxels in range. *)
Definition judge (i : nat) (roi_xyz_num : nat) (roi_xyz_array_t epi_xyz_array_t : xyz_array)
    (used_epi_index_list : list nat) (roi_flag_array : matrix) : M B matrix :=
  for_each (range (length used_epi_index_list)) roi_flag_array (fun roi_flag_array j =>
    index <- lift (getitem used_epi_index_list j) ;;
    epi_xyz <- lift (getitem epi_xyz_array_t index) ;;
    eqs <- comprehension (range roi_xyz_num) (fun k =>
             roi_xyz <- lift (getitem roi_xyz_array_t k) ;;
             ret (array_equal epi_xyz roi_xyz)) ;;
    if np_any eqs then lift (setitem2 roi_flag_array i index 1%Z)
    else ret roi_flag_array).

(** Lines 99-127: the body of the loop over the ROIs. *)
Definition match_roi (roi_xyz_list : list xyz_array) (epi_xyz_array epi_xyz_array_t : xyz_array)
    (roi_flag_array : matrix) (i : nat) : M B matrix :=
  roi <- lift (getitem roi_xyz_list i) ;;
  print ("getROIflag: ROI" +:+ pretty (i + 1) +:+ " (Voxel Size "
         +:+ pretty (length (row_of roi 0)) +:+ ")") ;;;
  let roi_xyz_num := length (row_of roi 0) in
  let roi_xyz_array_t := roi in
  range_list <- range_conditions roi epi_xyz_array ;;
  let used_index_array := map (Z.eqb 6) (np_sum_axis0 range_list) in
  let used_epi_index_list := np_where used_index_array in
  judge i roi_xyz_num roi_xyz_array_t epi_xyz_array_t used_epi_index_list roi_flag_array.

(** The [verbose] argument of the source is never read and is left out. *)
Definition get_roiflag (roi_xyz_list : list xyz_array) (epi_xyz_array : xyz_array)
    : M B matrix :=
  let epi_voxel_size := length epi_xyz_array in
  print ("EPI voxel size " +:+ pretty epi_voxel_size) ;;;
  let roi_flag_array := np_zeros (length roi_xyz_list) epi_voxel_size in
  let epi_xyz_array_t := epi_xyz_array in
  for_each (range (length roi_xyz_list)) roi_flag_array
    (match_roi roi_xyz_list epi_xyz_array epi_xyz_array_t).

End GetRoiflag.

(** ** Reading and writing the container *)

Section Orchestration.
Context `{Collaborators}.

Definition get_bdata : M BData BData := fun w => (Ok (w_bdata w), w).

(** [bdata.add_metadata(name, value, description=..., where=...)] *)
Definition bdata_add_metadata (name : string) (value : list Z) (description : string)
    (where_ : str_or_list) : M BData unit :=
  fun w => (Ok tt, World (add_metadata (w_bdata w) name value description where_) (w_stdout w)).

Definition as_list (v : str_or_list) : list string :=
  match v with
  | Str s => [s]
  | StrList l => l
  end.

(** [enumerate(l)] *)
Fixpoint enumerate_from {A} (k : nat) (l : list A) : list (nat * A) :=
  match l with
  | [] => []
  | x :: l' => (k, x) :: enumerate_from (S k) l'
  end.

Definition enumerate {A} (l : list A) : list (nat * A) := enumerate_from 0 l.

(** ** add_roimask *)

(** Line 47: the coordinates handed to the matcher for one mask. *)
Definition roi_source (mask_v : list Z) (mask_xyz : xyz_array) : outcome xyz_array :=
  bool_index mask_xyz (map (fun v => (v =? 1)%Z) mask_v).

(** Lines 38-50: load the masks; the state of the loop is
    [(mask_xyz_all, mask_v_all, voxel_consistency)]. *)
Definition load_roi_masks (voxel_xyz : xyz_array) (roi_mask : list string)
    : M BData (list xyz_array * list (list Z) * bool) :=
  for_each roi_mask ([], [], true) (fun st m =>
    let '(mask_xyz_all, mask_v_all, voxel_consistency) := st in
    let mask_v := mri_v (load_mri m) in
    let mask_xyz := mri_xyz (load_mri m) in
    let mask_v_all := mask_v_all ++ [mask_v] in
    selected <- lift (roi_source mask_v mask_xyz) ;;
    let mask_xyz_all := mask_xyz_all ++ [selected] in
    same <- lift (eq_all voxel_xyz mask_xyz) ;;
    ret (mask_xyz_all, mask_v_all, if negb same then false else voxel_consistency)).

Definition roi_name_of_mask (roi_prefix roi : string) : string :=
  roi_prefix +:+ "_" +:+ remove_all ".nii" (remove_all ".nii.gz" (basename roi)).

(** Lines 58-63: one metadata column per mask. *)
Definition write_roi_flags (roi_mask : list string) (roi_prefix : string)
    (brain_data : str_or_list) (roi_flag : matrix) : M BData unit :=
  for_each (enumerate roi_mask) tt (fun _ ir =>
    let roi_name := roi_name_of_mask roi_prefix ir.2 in
    print ("Adding " +:+ roi_name) ;;;
    flag <- lift (getitem roi_flag ir.1) ;;
    bdata_add_metadata roi_name flag ("1 = ROI " +:+ roi_name) brain_data).

(** Lines 33-36: the voxel xyz coordinates in [bdata]. *)
Definition read_voxel_xyz (brain_data : str_or_list) (xyz : list string)
    : M BData xyz_array :=
  bdata <- get_bdata ;;
  x <- lift (getitem xyz 0) ;;
  y <- lift (getitem xyz 1) ;;
  z <- lift (getitem xyz 2) ;;
  lift (np_vstack3 (get_metadata bdata x brain_data)
                   (get_metadata bdata y brain_data)
                   (get_metadata bdata z brain_data)).

(** Lines 52-56: the ROI flags, by stacking or by matching. *)
Definition roi_flags (voxel_xyz : xyz_array)
    (loaded : list xyz_array * list (list Z) * bool) : M BData matrix :=
  let '(mask_xyz_all, mask_v_all, voxel_consistency) := loaded in
  if voxel_consistency then lift (np_vstack mask_v_all)
  else get_roiflag mask_xyz_all voxel_xyz.

(** The source returns [bdata], or [(bdata, roi_flag)] when
    [return_roi_flag] is set; the container is the one of the world.  The
    [verbose] argument of the source is never read and is left out. *)
Definition add_roimask (roi_mask : str_or_list) (roi_prefix : string)
    (brain_data : str_or_list) (xyz : list string) (return_roi_flag : bool)
    : M BData (option matrix) :=
  let roi_mask := as_list roi_mask in
  voxel_xyz <- read_voxel_xyz brain_data xyz ;;
  loaded <- load_roi_masks voxel_xyz roi_mask ;;
  roi_flag <- roi_flags voxel_xyz loaded ;;
  write_roi_flags roi_mask roi_prefix brain_data roi_flag ;;;
  ret (if return_roi_flag then Some roi_flag else None).

(** ** add_roilabel *)

Definition add_roilabel_file (label : string) (vertex_data : str_or_list)
    (prefix : string) (verbose : bool) : M BData unit :=
  (if verbose then print ("Adding " +:+ label) else ret tt) ;;;
  let roi_vertex := read_label label in
  bdata <- get_bdata ;;
  let vindex := get_metadata bdata "vertex_index" vertex_data in
  let roi_flag := replicate (length vindex) 0%Z in
  let roi_flag :=
    foldl (fun roi_flag v =>
             zip_with (fun f vi => if (vi =? v)%Z then 1%Z else f) roi_flag vindex)
          roi_flag roi_vertex in
  let roi_name := prefix +:+ "_" +:+ remove_all ".label" (basename label) in
  bdata_add_metadata roi_name roi_flag ("1 = ROI " +:+ roi_name) vertex_data.

(** Lines 183: [(labels == label_id).astype(int)] *)
Definition annot_flag (labels : list Z) (label_id : nat) : list Z :=
  as_int (map (fun l => (l =? Z.of_nat label_id)%Z) labels).

(** Lines 189-195: the hemisphere of the destination. *)
Definition infer_hemi (vertex_data : str_or_list) : outcome string :=
  if py_in "Left" vertex_data then Ok "lh"
  else if py_in "Right" vertex_data then Ok "rh"
  else Raise ValueError.

(** Lines 182-198: one named region of an annotation file. *)
Definition annot_region (labels : list Z) (vertex_data : str_or_list) (prefix : string)
    (iname : nat * string) : M BData unit :=
  let label_id := iname.1 in
  let name := iname.2 in
  let roi_flag := annot_flag labels label_id in
  if (py_sum roi_flag =? 0)%Z then
    print ("Label " +:+ name +:+ " not found in the surface.")
  else
    hemi <- lift (infer_hemi vertex_data) ;;
    let roi_name := prefix +:+ "_" +:+ hemi +:+ "." +:+ name in
    bdata_add_metadata roi_name roi_flag ("1 = ROI " +:+ roi_name) vertex_data.

(** Lines 181-198: the regions of one annotation file. *)
Definition add_roilabel_annot (labels : list Z) (names : list string)
    (vertex_data : str_or_list) (prefix : string) : M BData unit :=
  for_each (enumerate names) tt (fun _ iname =>
    annot_region labels vertex_data prefix iname).

Definition add_roilabel (label : str_or_list) (vertex_data : str_or_list)
    (prefix : string) (verbose : bool) : M BData unit :=
  let label := as_list label in
  for_each label tt (fun _ lb =>
    if String.eqb (splitext lb).2 ".label" then
      add_roilabel_file lb vertex_data prefix verbose
    else if String.eqb (splitext lb).2 ".annot" then
      let annot := read_annot lb in
      let labels := annot_labels annot in
      let names := annot_names annot in
      add_roilabel_annot labels names vertex_data prefix
    else raise TypeError).

End Orchestration.

(** ** A recording container

    Modelled from the spec: the data container (section 6, [getMetadata]
    and [addMetadata]; [bdpy.BData] is not under [src/]).  A column is
    identified by its name within the namespace [where]; [store_add]
    records the column, [store_get] returns the values last recorded under
    that name and namespace, and the empty array when there are none. *)

Record column : Type := Column {
  col_name : string;
  col_value : list Z;
  col_description : string;
  col_where : str_or_list
}.

Definition str_or_list_eqb (a b : str_or_list) : bool :=
  match a, b with
  | Str s, Str t => String.eqb s t
  | StrList l, StrList m => bool_decide (l = m)
  | _, _ => false
  end.

Definition store_get (b : list column) (name : string) (where_ : str_or_list) : list Z :=
  match find (fun c => String.eqb (col_name c) name && str_or_list_eqb (col_where c) where_)
             (rev b) with
  | Some c => col_value c
  | None => []
  end.

Definition store_add (b : list column) (name : string) (value : list Z)
    (description : string) (where_ : str_or_list) : list column :=
  b ++ [Column name value description where_].

Definition store_collaborators (load : string -> mri) (label : string -> list Z)
    (annotation : string -> annot) : Collaborators :=
  {| BData := list column;
     get_metadata := store_get;
     add_metadata := store_add;
     load_mri := load;
     read_label := label;
     read_annot := annotation |}.

(** ** Reference definitions, in the words of the specification *)

(** The brute-force all-pairs matcher: entry j is 1 when reference
    coordinate j equals some coordinate of the ROI, and 0 otherwise. *)
Definition brute_force (S R : xyz_array) : list Z :=
  map (fun r => if existsb (array_equal r) S then 1%Z else 0%Z) R.

(** The coordinates of a mask whose voxel value is nonzero. *)
Fixpoint nonzero_columns (mask_v : list Z) (mask_xyz : xyz_array) : xyz_array :=
  match mask_v, mask_xyz with
  | v :: mask_v', c :: mask_xyz' =>
      if (v =? 0)%Z then nonzero_columns mask_v' mask_xyz'
      else c :: nonzero_columns mask_v' mask_xyz'
  | _, _ => []
  end.

(** The body of the loop of lines 123-127 once the index is read and the
    comparisons with the ROI rows are collected. *)
Definition judge_body {B} (i : nat) (roi epi : xyz_array) (m : matrix) (index : nat)
    : M B matrix :=
  epi_xyz <- lift (getitem epi index) ;;
  if existsb (array_equal epi_xyz) roi then lift (setitem2 m i index 1%Z)
  else ret m.

(** The flag exact matching leaves at a voxel that passed the filter [p]. *)
Definition flag_of (p : coord -> bool) (roi : xyz_array) (c : coord) (old : Z) : Z :=
  if p c && existsb (array_equal c) roi then 1%Z else old.

(** The line [get_roiflag] prints for ROI number [i]. *)
Definition roi_line (i : nat) (roi : xyz_array) : string :=
  "getROIflag: ROI" +:+ pretty (i + 1) +:+ " (Voxel Size " +:+ pretty (length roi) +:+ ")".

(** The world after more lines are printed. *)
Definition printed {B} (w : world B) (lines : list string) : world B :=
  World (w_bdata w) (w_stdout w ++ lines).

(** What [get_roiflag] prints for the ROIs [l], numbered from [k + 1]. *)
Fixpoint roi_lines (k : nat) (l : list xyz_array) : list string :=
  match l with
  | [] => []
  | roi :: l' => roi_line k roi :: roi_lines (S k) l'
  end.

Definition get_roiflag_lines (roi_xyz_list : list xyz_array) (epi_xyz_array : xyz_array)
    : list string :=
  ("EPI voxel size " +:+ pretty (length epi_xyz_array)) :: roi_lines 0 roi_xyz_list.

(** The bounding box of a non-empty ROI, as lines 111-114 compute it. *)
Definition box_lo (j : nat) (c0 : coord) (roi : xyz_array) : Z :=
  foldl Z.min (axis j c0) (row_of roi j).

Definition box_hi (j : nat) (c0 : coord) (roi : xyz_array) : Z :=
  foldl Z.max (axis j c0) (row_of roi j).

Definition in_box (c0 : coord) (roi : xyz_array) (c : coord) : bool :=
  (box_lo 0 c0 roi <=? axis 0 c)%Z && (axis 0 c <=? box_hi 0 c0 roi)%Z &&
  (box_lo 1 c0 roi <=? axis 1 c)%Z && (axis 1 c <=? box_hi 1 c0 roi)%Z &&
  (box_lo 2 c0 roi <=? axis 2 c)%Z && (axis 2 c <=? box_hi 2 c0 roi)%Z.

(** The columns of [mask_xyz] whose voxel value is 1. *)
Fixpoint ones_columns (mask_v : list Z) (mask_xyz : xyz_array) : xyz_array :=
  match mask_v, mask_xyz with
  | v :: mask_v', c :: mask_xyz' =>
      if (v =? 1)%Z then c :: ones_columns mask_v' mask_xyz'
      else ones_columns mask_v' mask_xyz'
  | _, _ => []
  end.

(** Two shapes (3, n) and (3, m) that cannot be broadcast together. *)
Definition incompatible (a b : xyz_array) : Prop :=
  length a <> length b /\ length a <> 1 /\ length b <> 1.

Section OrchestrationSpec.
Context `{Collaborators}.

(** The world after the column of one mask is written (lines 60-63). *)
Definition mask_written (roi_prefix : string) (brain_data : str_or_list)
    (w : world BData) (rf : string * list Z) : world BData :=
  let roi_name := roi_name_of_mask roi_prefix rf.1 in
  World (add_metadata (w_bdata w) roi_name rf.2 ("1 = ROI " +:+ roi_name) brain_data)
        (w_stdout w ++ ["Adding " +:+ roi_name]).

Definition masks_written (roi_prefix : string) (brain_data : str_or_list)
    (l : list (string * list Z)) (w : world BData) : world BData :=
  foldl (mask_written roi_prefix brain_data) w l.

(** The ROI source of the mask file [m]. *)
Definition mask_source (m : string) : xyz_array :=
  ones_columns (mri_v (load_mri m)) (mri_xyz (load_mri m)).

(** The mask file [m] has one value and one coordinate per voxel of a
    grid of [n] voxels. *)
Definition mask_on_grid (n : nat) (m : string) : Prop :=
  length (mri_v (load_mri m)) = n /\ length (mri_xyz (load_mri m)) = n.

(** The coordinates of the mask file [m] are those of [voxel_xyz], in
    the same order. *)
Definition same_grid (voxel_xyz : xyz_array) (m : string) : bool :=
  bool_decide (mri_xyz (load_mri m) = voxel_xyz).

End OrchestrationSpec.

(** A flag: 0 or 1. *)
Definition binary (v : Z) : Prop := v = 0%Z \/ v = 1%Z.

(** ** Example inputs *)

Definition default_xyz : list string := ["voxel_x"; "voxel_y"; "voxel_z"].
Definition default_brain_data : str_or_list := Str "VoxelData".

(** A container that holds the voxel coordinates [R] and nothing else. *)
Definition bdata_of_grid (R : xyz_array) : list column :=
  [Column "voxel_x" (row_of R 0) "" default_brain_data;
   Column "voxel_y" (row_of R 1) "" default_brain_data;
   Column "voxel_z" (row_of R 2) "" default_brain_data].

(** Files by name; an unknown name reads as an empty image. *)
Definition files_mri (files : list (string * mri)) (m : string) : mri :=
  match find (fun f => String.eqb f.1 m) files with
  | Some f => f.2
  | None => Mri [] [] []
  end.

Definition files_annot (files : list (string * annot)) (m : string) : annot :=
  match find (fun f => String.eqb f.1 m) files with
  | Some f => f.2
  | None => Annot [] [] []
  end.

Definition mask_collaborators (files : list (string * mri)) : Collaborators :=
  store_collaborators (files_mri files) (fun _ => []) (fun _ => Annot [] [] []).

Definition annot_collaborators (files : list (string * annot)) : Collaborators :=
  store_collaborators (fun _ => Mri [] [] []) (fun _ => []) (files_annot files).

Definition grid2 : xyz_array := [(0, 0, 0); (1, 0, 0)]%Z.
Definition grid3 : xyz_array := [(0, 0, 0); (1, 0, 0); (2, 0, 0)]%Z.

(** Mask files for the examples: [same.nii] and [two.nii] lie on [grid2],
    [swapped.nii] lists the voxels of [grid2] in the other order,
    [cropped.nii] lies on [grid3]. *)
Definition mask_files : list (string * mri) :=
  [("same.nii", Mri [1; 0]%Z grid2 []);
   ("two.nii", Mri [1; 2]%Z grid2 []);
   ("swapped.nii", Mri [2; 1]%Z [(1, 0, 0); (0, 0, 0)]%Z []);
   ("cropped.nii", Mri [1; 1; 1]%Z grid3 [])].

Definition world_of_grid (R : xyz_array) : world (list column) :=
  World (bdata_of_grid R) [].

(** ** What the annotation loop leaves behind *)

(** The region with id [i] has at least one vertex (line 185 is false). *)
Definition region_matches (labels : list Z) (i : nat) : bool :=
  negb (py_sum (annot_flag labels i) =? 0)%Z.

Definition not_found_line (name : string) : string :=
  "Label " +:+ name +:+ " not found in the surface.".

Definition region_name (prefix hemi name : string) : string :=
  prefix +:+ "_" +:+ hemi +:+ "." +:+ name.

Section AnnotSpec.
Context `{Collaborators}.

(** The container after the column of one region is written. *)
Definition region_written (labels : list Z) (vertex_data : str_or_list)
    (prefix hemi : string) (b : BData) (iname : nat * string) : BData :=
  add_metadata b (region_name prefix hemi iname.2) (annot_flag labels iname.1)
               ("1 = ROI " +:+ region_name prefix hemi iname.2) vertex_data.


End AnnotSpec.


(** Annotation files for the examples: in [lh.ab.annot] the region A has
    two vertices and B has none; in [lh.none.annot] no vertex carries the
    id of a named region. *)
Definition annot_files : list (string * annot) :=
  [("lh.ab.annot", Annot [0; -1; 0]%Z [] ["A"; "B"]);
   ("lh.none.annot", Annot [-1; 7]%Z [] ["A"; "B"])].

(** More mask files for the examples: [none.nii] lists the voxels of
    [grid2] in the other order and has no voxel of value 1. *)
Definition more_mask_files : list (string * mri) :=
  mask_files ++ [("none.nii", Mri [0; 2]%Z [(1, 0, 0); (0, 0, 0)]%Z [])].

(** The flags of a label file: 1 at the vertices of [vindex] that the
    label lists, 0 elsewhere. *)
Definition label_flag (roi_vertex vindex : list Z) : list Z :=
  map (fun vi => if existsb (Z.eqb vi) roi_vertex then 1%Z else 0%Z) vindex.

(** The default of the [vertex_data] argument of [add_roilabel]. *)
Definition default_vertex_data : str_or_list := StrList ["VertexData"].

(** A container with the vertex ids [vindex] of a surface. *)
Definition bdata_of_vertices (vertex_data : str_or_list) (vindex : list Z) : list column :=
  [Column "vertex_index" vindex "" vertex_data].

(** Label files for the examples: every label lists the vertices 3, 5 and
    3 again. *)
Definition label_collaborators : Collaborators :=
  store_collaborators (fun _ => Mri [] [] []) (fun _ => [3; 5; 3]%Z) (files_annot annot_files).

(** The character [c] occurs in [s]. *)
Fixpoint has_char (c : ascii) (s : string) : bool :=
  match s with
  | EmptyString => false
  | String a s' => Ascii.eqb a c || has_char c s'
  end.

(** * Properties *)

(** ** Statements and loops *)

Lemma for_each_ext {B A X} (l : list X) (f g : A -> X -> M B A) :
  (forall a x w, In x l -> f a x w = g a x w) ->
  forall a w, for_each l a f w = for_each l a g w.
Proof.
  induction l as [|x l IH]; intros Hfg a w; [reflexivity|].
  simpl. unfold bind. rewrite Hfg by (left; reflexivity).
  destruct (g a x w) as [[a'|e] w']; [|reflexivity].
  apply IH. intros; apply Hfg; right; assumption.
Qed.

Lemma for_each_app {B A X} (l1 l2 : list X) (f : A -> X -> M B A) a w :
  for_each (l1 ++ l2) a f w = (a' <- for_each l1 a f ;; for_each l2 a' f) w.
Proof.
  revert a w. induction l1 as [|x l1 IH]; intros a w; simpl.
  - reflexivity.
  - unfold bind in IH |- *.
    destruct (f a x w) as [[a'|e] w']; [|reflexivity].
    apply IH.
Qed.

(** A loop over [range(len(l))] that starts by reading [l[j]] is a loop
    over the elements of [l]. *)
Lemma for_each_range_getitem {B A X} (pre l : list X) (f : A -> X -> M B A) a w :
  for_each (seq (length pre) (length l)) a
    (fun a j => x <- lift (getitem (pre ++ l) j) ;; f a x) w
  = for_each l a f w.
Proof.
  revert pre a w. induction l as [|x l IH]; intros pre a w; [reflexivity|].
  cbn [for_each length seq]. unfold bind at 1. unfold bind at 1.
  unfold lift at 1, getitem at 1.
  rewrite lookup_app_r by lia. rewrite Nat.sub_diag. cbn [lookup list_lookup].
  unfold bind at 2.
  destruct (f a x w) as [[a'|e] w']; [|reflexivity].
  specialize (IH (pre ++ [x]) a' w').
  rewrite length_app in IH. simpl in IH. rewrite Nat.add_1_r in IH.
  rewrite <- app_assoc in IH. exact IH.
Qed.

Lemma comprehension_range_getitem {B A X} (pre l : list X) (g : X -> A) (w : world B) :
  comprehension (seq (length pre) (length l))
    (fun k => x <- lift (getitem (pre ++ l) k) ;; ret (g x)) w
  = (Ok (map g l), w).
Proof.
  revert pre. induction l as [|x l IH]; intros pre; [reflexivity|].
  cbn [comprehension length seq map]. unfold bind at 1. unfold bind at 1.
  unfold lift at 1, getitem at 1.
  rewrite lookup_app_r by lia. rewrite Nat.sub_diag. cbn [lookup list_lookup].
  unfold ret at 1. unfold bind at 1.
  specialize (IH (pre ++ [x])).
  rewrite length_app in IH. simpl in IH. rewrite Nat.add_1_r in IH.
  rewrite <- app_assoc in IH. simpl in IH. rewrite IH.
  reflexivity.
Qed.

(** ** The bounding box *)

Lemma foldl_min_le (l : list Z) (a : Z) :
  (foldl Z.min a l <= a)%Z /\ Forall (fun x => (foldl Z.min a l <= x)%Z) l.
Proof.
  revert a. induction l as [|x l IH]; intros a; simpl.
  - split; [lia | constructor].
  - destruct (IH (Z.min a x)) as [H1 H2]. split; [lia|].
    constructor; [lia | exact H2].
Qed.

Lemma foldl_max_ge (l : list Z) (a : Z) :
  (a <= foldl Z.max a l)%Z /\ Forall (fun x => (x <= foldl Z.max a l)%Z) l.
Proof.
  revert a. induction l as [|x l IH]; intros a; simpl.
  - split; [lia | constructor].
  - destruct (IH (Z.max a x)) as [H1 H2]. split; [lia|].
    constructor; [lia | exact H2].
Qed.

Lemma array_equal_eq (a b : coord) : array_equal a b = true <-> a = b.
Proof.
  destruct a as [[a1 a2] a3], b as [[b1 b2] b3]. unfold array_equal. simpl.
  rewrite !andb_true_iff, !Z.eqb_eq. split.
  - intros [[-> ->] ->]. reflexivity.
  - intros [= -> -> ->]. auto.
Qed.

Lemma existsb_array_equal (c : coord) (S : xyz_array) :
  existsb (array_equal c) S = true <-> In c S.
Proof.
  rewrite existsb_exists. split.
  - intros [x [Hx Heq]]. apply array_equal_eq in Heq. subst. exact Hx.
  - intros Hc. exists c. split; [exact Hc | apply array_equal_eq; reflexivity].
Qed.

Lemma box_bounds (j : nat) (c0 : coord) (roi : xyz_array) (c : coord) :
  In c (c0 :: roi) ->
  (box_lo j c0 roi <= axis j c <= box_hi j c0 roi)%Z.
Proof.
  unfold box_lo, box_hi, row_of.
  destruct (foldl_min_le (map (axis j) roi) (axis j c0)) as [Hl1 Hl2].
  destruct (foldl_max_ge (map (axis j) roi) (axis j c0)) as [Hh1 Hh2].
  intros [<- | Hin]; [lia|].
  rewrite Forall_forall in Hl2, Hh2.
  assert (Hm : In (axis j c) (map (axis j) roi)) by (apply in_map; exact Hin).
  apply list_elem_of_In in Hm.
  specialize (Hl2 _ Hm). specialize (Hh2 _ Hm). lia.
Qed.

(** The pre-filter has no false negative. *)
Lemma in_box_of_member (c0 : coord) (roi : xyz_array) (c : coord) :
  In c (c0 :: roi) -> in_box c0 roi c = true.
Proof.
  intros Hin. unfold in_box.
  pose proof (box_bounds 0 c0 roi c Hin).
  pose proof (box_bounds 1 c0 roi c Hin).
  pose proof (box_bounds 2 c0 roi c Hin).
  rewrite !andb_true_iff, !Z.leb_le. lia.
Qed.

Lemma range_conditions_nil {B} (epi : xyz_array) (w : world B) :
  range_conditions [] epi w = (Raise ValueError, w).
Proof. reflexivity. Qed.

Lemma range_conditions_cons {B} (c0 : coord) (roi epi : xyz_array) (w : world B) :
  range_conditions (c0 :: roi) epi w =
  (Ok [as_int (map (fun v => (box_lo 0 c0 roi <=? v)%Z) (row_of epi 0));
       as_int (map (fun v => (v <=? box_hi 0 c0 roi)%Z) (row_of epi 0));
       as_int (map (fun v => (box_lo 1 c0 roi <=? v)%Z) (row_of epi 1));
       as_int (map (fun v => (v <=? box_hi 1 c0 roi)%Z) (row_of epi 1));
       as_int (map (fun v => (box_lo 2 c0 roi <=? v)%Z) (row_of epi 2));
       as_int (map (fun v => (v <=? box_hi 2 c0 roi)%Z) (row_of epi 2))], w).
Proof. reflexivity. Qed.

Lemma used_index_array_in_box (c0 : coord) (roi epi : xyz_array) :
  map (Z.eqb 6)
    (np_sum_axis0
       [as_int (map (fun v => (box_lo 0 c0 roi <=? v)%Z) (row_of epi 0));
        as_int (map (fun v => (v <=? box_hi 0 c0 roi)%Z) (row_of epi 0));
        as_int (map (fun v => (box_lo 1 c0 roi <=? v)%Z) (row_of epi 1));
        as_int (map (fun v => (v <=? box_hi 1 c0 roi)%Z) (row_of epi 1));
        as_int (map (fun v => (box_lo 2 c0 roi <=? v)%Z) (row_of epi 2));
        as_int (map (fun v => (v <=? box_hi 2 c0 roi)%Z) (row_of epi 2))])
  = map (in_box c0 roi) epi.
Proof.
  unfold np_sum_axis0, as_int, row_of. cbn [foldl].
  induction epi as [|c epi IH]; [reflexivity|].
  cbn [map zip_with]. f_equal; [|exact IH].
  unfold in_box.
  destruct (box_lo 0 c0 roi <=? axis 0 c)%Z, (axis 0 c <=? box_hi 0 c0 roi)%Z,
           (box_lo 1 c0 roi <=? axis 1 c)%Z, (axis 1 c <=? box_hi 1 c0 roi)%Z,
           (box_lo 2 c0 roi <=? axis 2 c)%Z, (axis 2 c <=? box_hi 2 c0 roi)%Z;
    reflexivity.
Qed.

(** ** Exact matching *)

Lemma np_any_map {A} (g : A -> bool) (l : list A) : np_any (map g l) = existsb g l.
Proof. unfold np_any. induction l as [|x l IH]; simpl; [reflexivity | rewrite IH; reflexivity]. Qed.

Lemma judge_for_each {B} (i : nat) (roi epi : xyz_array) (used : list nat) (m : matrix)
    (w : world B) :
  judge i (length (row_of roi 0)) roi epi used m w
  = for_each used m (judge_body i roi epi) w.
Proof.
  unfold judge, range.
  rewrite <- (for_each_range_getitem [] used (judge_body i roi epi) m w).
  apply for_each_ext. intros a j w' _.
  unfold judge_body, bind, lift. simpl app.
  destruct (getitem used j) as [index|e]; [|reflexivity].
  destruct (getitem epi index) as [c|e]; [|reflexivity].
  pose proof (comprehension_range_getitem [] roi (array_equal c) w') as Hc.
  unfold bind, lift in Hc. simpl in Hc.
  unfold row_of. rewrite length_map. unfold range. rewrite Hc.
  rewrite np_any_map. reflexivity.
Qed.

Lemma judge_loop {B} (i : nat) (roi : xyz_array) (p : coord -> bool)
    (post pre : xyz_array) (r : list Z) (m : matrix) (w : world B) :
  m !! i = Some r ->
  length r = length (pre ++ post) ->
  for_each (np_where_from (length pre) (map p post)) m (judge_body i roi (pre ++ post)) w
  = (Ok (<[i := take (length pre) r
               ++ zip_with (flag_of p roi) post (drop (length pre) r)]> m), w).
Proof.
  revert pre r m. induction post as [|c post IH]; intros pre r m Hm Hlen.
  - cbn [map np_where_from for_each zip_with]. unfold ret. rewrite app_nil_r in *.
    rewrite take_ge by lia. rewrite (list_insert_id m i r Hm). reflexivity.
  - assert (Hk : length pre < length r) by (rewrite Hlen, length_app; simpl; lia).
    destruct (lookup_lt_is_Some_2 r (length pre) Hk) as [x Hx].
    assert (Hrow : forall r', length r' = length r ->
              take (length pre) r' = take (length pre) r ->
              drop (S (length pre)) r' = drop (S (length pre)) r ->
              r' !! length pre = Some (flag_of p roi c x) ->
              take (length (pre ++ [c])) r'
                ++ zip_with (flag_of p roi) post (drop (length (pre ++ [c])) r')
              = take (length pre) r
                ++ zip_with (flag_of p roi) (c :: post) (drop (length pre) r)).
    { intros r' Hl Ht Hd Hx'. rewrite length_app. simpl. rewrite Nat.add_1_r.
      rewrite (take_S_r _ _ _ Hx'), Ht, Hd, (drop_S _ _ _ Hx). simpl.
      rewrite <- app_assoc. reflexivity. }
    assert (Hepi : pre ++ c :: post = (pre ++ [c]) ++ post)
      by (rewrite <- app_assoc; reflexivity).
    assert (Hlen' : length r = length ((pre ++ [c]) ++ post))
      by (rewrite <- Hepi; exact Hlen).
    assert (Hnext : np_where_from (S (length pre)) (map p post)
                    = np_where_from (length (pre ++ [c])) (map p post))
      by (rewrite length_app; simpl; rewrite Nat.add_1_r; reflexivity).
    assert (Hskip : flag_of p roi c x = x ->
              for_each (np_where_from (S (length pre)) (map p post)) m
                (judge_body i roi (pre ++ c :: post)) w
              = (Ok (<[i := take (length pre) r
                      ++ zip_with (flag_of p roi) (c :: post) (drop (length pre) r)]> m), w)).
    { intros Hf. rewrite Hnext, Hepi, (IH (pre ++ [c]) r m Hm Hlen').
      rewrite (Hrow r); auto. rewrite Hf. exact Hx. }
    cbn [map np_where_from]. destruct (p c) eqn:Hp.
    + cbn [for_each]. unfold bind at 1. unfold judge_body at 1.
      unfold bind at 1. unfold lift at 1, getitem at 1.
      rewrite lookup_app_r by lia. rewrite Nat.sub_diag. cbn [lookup list_lookup].
      destruct (existsb (array_equal c) roi) eqn:Hhit.
      * unfold lift, setitem2. rewrite Hm.
        destruct (decide (length pre < length r)) as [_|Hn]; [|lia].
        rewrite Hnext, Hepi.
        rewrite (IH (pre ++ [c]) (<[length pre := 1%Z]> r)).
        -- rewrite (list_insert_insert_eq m). rewrite Hrow; [reflexivity| | | |].
           ++ apply length_insert.
           ++ apply take_insert_ge. lia.
           ++ apply drop_insert_lt. lia.
           ++ rewrite list_lookup_insert_eq by lia.
              unfold flag_of. rewrite Hp, Hhit. reflexivity.
        -- apply list_lookup_insert_eq. eapply lookup_lt_Some. exact Hm.
        -- rewrite length_insert. exact Hlen'.
      * unfold ret. apply Hskip. unfold flag_of. rewrite Hp, Hhit. reflexivity.
    + apply Hskip. unfold flag_of. rewrite Hp. reflexivity.
Qed.

Lemma zip_with_replicate_r {A C} (f : A -> Z -> C) (l : list A) (z : Z) :
  zip_with f l (replicate (length l) z) = map (fun a => f a z) l.
Proof. induction l as [|a l IH]; simpl; [reflexivity | rewrite IH; reflexivity]. Qed.

(** One ROI: the pre-filter followed by exact matching is the brute-force
    row. *)
Lemma match_roi_row {B} (i : nat) (c0 : coord) (roi epi : xyz_array) (m : matrix)
    (w : world B) :
  m !! i = Some (replicate (length epi) 0%Z) ->
  judge i (length (row_of (c0 :: roi) 0)) (c0 :: roi) epi
        (np_where (map (in_box c0 roi) epi)) m w
  = (Ok (<[i := brute_force (c0 :: roi) epi]> m), w).
Proof.
  intros Hm. rewrite judge_for_each. unfold np_where.
  pose proof (judge_loop i (c0 :: roi) (in_box c0 roi) epi [] _ m w Hm) as HL.
  cbn [length app take drop] in HL. rewrite HL by apply length_replicate.
  rewrite take_0, drop_0. cbn [app]. rewrite zip_with_replicate_r.
  do 3 f_equal. unfold brute_force. apply map_ext. intros c.
  unfold flag_of. destruct (existsb (array_equal c) (c0 :: roi)) eqn:Hhit.
  - apply existsb_array_equal in Hhit.
    rewrite (in_box_of_member c0 roi c Hhit). reflexivity.
  - rewrite andb_false_r. reflexivity.
Qed.

(** ** The loop over the ROIs *)

Lemma printed_printed {B} (w : world B) l1 l2 :
  printed (printed w l1) l2 = printed w (l1 ++ l2).
Proof. unfold printed. simpl. rewrite <- app_assoc. reflexivity. Qed.

Lemma printed_nil {B} (w : world B) : printed w [] = w.
Proof. destruct w. unfold printed. simpl. rewrite app_nil_r. reflexivity. Qed.

Lemma match_roi_empty {B} (Ss : list xyz_array) (epi : xyz_array) (m : matrix) (i : nat)
    (w : world B) :
  Ss !! i = Some [] ->
  match_roi Ss epi epi m i w = (Raise ValueError, printed w [roi_line i []]).
Proof.
  intros Hi. unfold match_roi, bind, lift, getitem, print. rewrite Hi. reflexivity.
Qed.

Lemma match_roi_nonempty {B} (Ss : list xyz_array) (epi : xyz_array) (m : matrix) (i : nat)
    (S : xyz_array) (w : world B) :
  Ss !! i = Some S -> S <> [] ->
  m !! i = Some (replicate (length epi) 0%Z) ->
  match_roi Ss epi epi m i w
  = (Ok (<[i := brute_force S epi]> m), printed w [roi_line i S]).
Proof.
  intros Hi HS Hm. destruct S as [|c0 roi]; [congruence|].
  unfold match_roi. unfold bind at 1. unfold lift at 1, getitem at 1. rewrite Hi.
  unfold bind at 1. unfold print at 1.
  unfold bind at 1. rewrite range_conditions_cons.
  rewrite used_index_array_in_box.
  rewrite match_roi_row by exact Hm.
  unfold printed, roi_line, row_of. rewrite length_map. reflexivity.
Qed.

Lemma roi_loop_prefix {B} (epi : xyz_array) (good rest pre : list xyz_array) (w : world B) :
  Forall (fun S => S <> []) good ->
  for_each (seq (length pre) (length (good ++ rest)))
    (map (fun S => brute_force S epi) pre
       ++ replicate (length (good ++ rest)) (replicate (length epi) 0%Z))
    (match_roi (pre ++ good ++ rest) epi epi) w
  = for_each (seq (length (pre ++ good)) (length rest))
      (map (fun S => brute_force S epi) (pre ++ good)
         ++ replicate (length rest) (replicate (length epi) 0%Z))
      (match_roi (pre ++ good ++ rest) epi epi)
      (printed w (roi_lines (length pre) good)).
Proof.
  revert pre w. induction good as [|S good IH]; intros pre w Hgood.
  - simpl. rewrite app_nil_r, printed_nil. reflexivity.
  - inversion Hgood as [|? ? HS Hgood']; subst.
    cbn [app length seq for_each replicate]. unfold bind at 1.
    rewrite (match_roi_nonempty _ epi _ (length pre) S).
    + specialize (IH (pre ++ [S]) (printed w [roi_line (length pre) S]) Hgood').
      replace (length (pre ++ [S])) with (Datatypes.S (length pre)) in IH
        by (rewrite length_app; simpl; lia).
      rewrite <- !app_assoc in IH. cbn [app] in IH.
      rewrite map_app in IH. cbn [map] in IH. rewrite <- app_assoc in IH. cbn [app] in IH.
      rewrite insert_app_r_alt by (rewrite length_map; lia).
      rewrite length_map, Nat.sub_diag. cbn [insert list_insert].
      rewrite IH. rewrite printed_printed. reflexivity.
    + rewrite lookup_app_r by lia. rewrite Nat.sub_diag. reflexivity.
    + exact HS.
    + rewrite lookup_app_r by (rewrite length_map; lia).
      rewrite length_map, Nat.sub_diag. reflexivity.
Qed.

Lemma get_roiflag_all_nonempty {B} (Ss : list xyz_array) (epi : xyz_array) (w : world B) :
  Forall (fun S => S <> []) Ss ->
  get_roiflag Ss epi w
  = (Ok (map (fun S => brute_force S epi) Ss), printed w (get_roiflag_lines Ss epi)).
Proof.
  intros Hall. unfold get_roiflag. unfold bind at 1. unfold print at 1.
  pose proof (roi_loop_prefix epi Ss [] []
               (World (w_bdata w) (w_stdout w ++ ["EPI voxel size " +:+ pretty (length epi)]))
               Hall) as HL.
  cbn [app length map] in HL. rewrite app_nil_r in HL.
  unfold np_zeros, range. rewrite HL. cbn [seq for_each replicate]. unfold ret.
  rewrite app_nil_r. unfold printed, get_roiflag_lines. simpl.
  rewrite <- app_assoc. reflexivity.
Qed.

Lemma roi_lines_snoc (k : nat) (l : list xyz_array) (S : xyz_array) :
  roi_lines k (l ++ [S]) = roi_lines k l ++ [roi_line (k + length l) S].
Proof.
  revert k. induction l as [|x l IHl]; intros k; cbn [app roi_lines length].
  - rewrite Nat.add_0_r. reflexivity.
  - rewrite IHl. replace (Datatypes.S k + length l) with (k + Datatypes.S (length l)) by lia.
    reflexivity.
Qed.

Lemma get_roiflag_first_empty {B} (good rest : list xyz_array) (epi : xyz_array)
    (w : world B) :
  Forall (fun S => S <> []) good ->
  get_roiflag (good ++ [] :: rest) epi w
  = (Raise ValueError, printed w (get_roiflag_lines (good ++ [[]]) epi)).
Proof.
  intros Hall. unfold get_roiflag. unfold bind at 1. unfold print at 1.
  pose proof (roi_loop_prefix epi good ([] :: rest) []
               (World (w_bdata w) (w_stdout w ++ ["EPI voxel size " +:+ pretty (length epi)]))
               Hall) as HL.
  cbn [app length map] in HL.
  unfold np_zeros, range. rewrite HL. cbn [length seq for_each]. unfold bind at 1.
  rewrite match_roi_empty.
  - unfold printed, get_roiflag_lines. simpl. rewrite <- !app_assoc. simpl.
    do 3 f_equal.
    rewrite roi_lines_snoc. reflexivity.
  - rewrite lookup_app_r by lia. rewrite Nat.sub_diag. reflexivity.
Qed.

(** ** Array comparison and boolean indexing *)

Lemma zip_with_array_equal (a b : xyz_array) :
  length a = length b ->
  forallb id (zip_with array_equal a b) = bool_decide (a = b).
Proof.
  revert b. induction a as [|x a IH]; intros [|y b] Hlen; try discriminate.
  - reflexivity.
  - simpl in Hlen. injection Hlen as Hlen. cbn [zip_with forallb id].
    rewrite (IH b Hlen). destruct (array_equal x y) eqn:Hxy.
    + apply array_equal_eq in Hxy. subst y. simpl.
      apply bool_decide_ext. split; [intros ->; reflexivity | intros [= ->]; reflexivity].
    + simpl. symmetry. apply bool_decide_eq_false. intros [= -> ->].
      assert (Ht : array_equal y y = true) by (apply array_equal_eq; reflexivity).
      congruence.
Qed.

Lemma eq_all_same_length (a b : xyz_array) :
  length a = length b -> eq_all a b = Ok (bool_decide (a = b)).
Proof.
  intros Hlen. unfold eq_all. rewrite Hlen, Nat.eqb_refl.
  rewrite zip_with_array_equal by exact Hlen. reflexivity.
Qed.

Lemma eq_all_incompatible (a b : xyz_array) :
  incompatible a b -> eq_all a b = Raise AttributeError.
Proof.
  intros (Hab & Ha & Hb). unfold eq_all.
  destruct (Nat.eqb_spec (length a) (length b)) as [Heq|_]; [contradiction|].
  destruct a as [|c [|c' a]]; destruct b as [|d [|d' b]]; simpl in *;
    try reflexivity; lia.
Qed.

Lemma eq_all_raises (a b : xyz_array) (e : exn) :
  eq_all a b = Raise e -> e = AttributeError /\ incompatible a b.
Proof.
  unfold eq_all, incompatible.
  destruct (Nat.eqb_spec (length a) (length b)) as [Heq|Hne]; [discriminate|].
  destruct a as [|c [|c' a]]; destruct b as [|d [|d' b]]; simpl in *;
    try discriminate; intros [= <-]; repeat split; lia.
Qed.

Lemma select_columns_ones (v : list Z) (xyz : xyz_array) :
  select_columns xyz (map (fun x => (x =? 1)%Z) v) = ones_columns v xyz.
Proof.
  revert v. induction xyz as [|c xyz IH]; intros [|x v]; try reflexivity.
  simpl. rewrite IH. reflexivity.
Qed.

Lemma roi_source_ok (v : list Z) (xyz : xyz_array) :
  length v = length xyz -> roi_source v xyz = Ok (ones_columns v xyz).
Proof.
  intros Hlen. unfold roi_source, bool_index.
  rewrite length_map, Hlen, Nat.eqb_refl, select_columns_ones. reflexivity.
Qed.

Lemma ones_columns_lookup (v : list Z) (xyz : xyz_array) (c : Z * Z * Z) :
  In c (ones_columns v xyz) <->
  exists j, v !! j = Some 1%Z /\ xyz !! j = Some c.
Proof.
  revert xyz. induction v as [|x v IH]; intros [|d xyz]; simpl.
  - split; [tauto | intros (j & Hj & _); discriminate].
  - split; [tauto | intros (j & Hj & _); discriminate].
  - split; [tauto | intros (j & _ & Hj); destruct j; discriminate].
  - destruct (Z.eqb_spec x 1) as [->|Hx].
    + simpl. rewrite IH. split.
      * intros [-> | (j & Hv & Hc)]; [exists 0; auto | exists (S j); auto].
      * intros ([|j] & Hv & Hc); [left; simpl in Hc; congruence | right; exists j; auto].
    + rewrite IH. split.
      * intros (j & Hv & Hc). exists (S j). auto.
      * intros ([|j] & Hv & Hc); [simpl in Hv; congruence | exists j; auto].
Qed.

(** ** Loading the masks *)

Section AddRoimask.
Context `{Collaborators}.

Lemma read_voxel_xyz_world (brain_data : str_or_list) (xyz : list string) (w : world BData) :
  (read_voxel_xyz brain_data xyz w).2 = w.
Proof.
  unfold read_voxel_xyz, bind, get_bdata, lift.
  destruct (getitem xyz 0); [|reflexivity].
  destruct (getitem xyz 1); [|reflexivity].
  destruct (getitem xyz 2); reflexivity.
Qed.

Lemma load_roi_masks_same_shape (voxel_xyz : xyz_array) (roi_mask : list string)
    (w : world BData) :
  Forall (mask_on_grid (length voxel_xyz)) roi_mask ->
  load_roi_masks voxel_xyz roi_mask w
  = (Ok (map mask_source roi_mask,
         map (fun m => mri_v (load_mri m)) roi_mask,
         forallb (same_grid voxel_xyz) roi_mask), w).
Proof.
  unfold load_roi_masks.
  assert (Hgen : forall xs vs (b : bool),
    Forall (mask_on_grid (length voxel_xyz)) roi_mask ->
    for_each roi_mask (xs, vs, b) (fun st m =>
      let '(mask_xyz_all, mask_v_all, voxel_consistency) := st in
      let mask_v := mri_v (load_mri m) in
      let mask_xyz := mri_xyz (load_mri m) in
      let mask_v_all := mask_v_all ++ [mask_v] in
      selected <- lift (roi_source mask_v mask_xyz) ;;
      let mask_xyz_all := mask_xyz_all ++ [selected] in
      same <- lift (eq_all voxel_xyz mask_xyz) ;;
      ret (mask_xyz_all, mask_v_all, if negb same then false else voxel_consistency)) w
    = (Ok (xs ++ map mask_source roi_mask,
           vs ++ map (fun m => mri_v (load_mri m)) roi_mask,
           b && forallb (same_grid voxel_xyz) roi_mask), w)).
  { induction roi_mask as [|m l IH]; intros xs vs b Hall.
    - simpl. unfold ret. rewrite !app_nil_r, andb_true_r. reflexivity.
    - inversion Hall as [|? ? [Hv Hx] Hall']; subst.
      cbn [for_each]. unfold bind at 1. unfold bind at 1. unfold lift at 1.
      rewrite roi_source_ok by congruence.
      unfold bind at 1. unfold lift at 1.
      rewrite eq_all_same_length by congruence. unfold ret at 1.
      rewrite (IH _ _ _ Hall'). cbn [map forallb].
      rewrite <- !app_assoc. cbn [app]. unfold same_grid at 2, mask_source at 2.
      do 3 f_equal.
      rewrite (bool_decide_ext (voxel_xyz = mri_xyz (load_mri m))
                               (mri_xyz (load_mri m) = voxel_xyz)) by (split; congruence).
      destruct (bool_decide (mri_xyz (load_mri m) = voxel_xyz)), b; reflexivity. }
  intros Hall. exact (Hgen [] [] true Hall).
Qed.

(** A mask whose shape cannot be broadcast against the grid stops the
    loading loop at the comparison of line 49. *)
Lemma load_roi_masks_incompatible (voxel_xyz : xyz_array) (roi_mask : list string)
    (w : world BData) :
  Forall (fun m => length (mri_v (load_mri m)) = length (mri_xyz (load_mri m))) roi_mask ->
  Exists (fun m => incompatible voxel_xyz (mri_xyz (load_mri m))) roi_mask ->
  load_roi_masks voxel_xyz roi_mask w = (Raise AttributeError, w).
Proof.
  unfold load_roi_masks. generalize (@nil (list (Z * Z * Z)), @nil (list Z), true).
  induction roi_mask as [|m l IH]; intros st Hwf Hbad.
  - inversion Hbad.
  - inversion Hwf as [|? ? Hm Hwf']; subst.
    destruct st as [[xs vs] b].
    cbn [for_each]. unfold bind at 1. unfold bind at 1. unfold lift at 1.
    rewrite roi_source_ok by exact Hm.
    unfold bind at 1. unfold lift at 1.
    destruct (eq_all voxel_xyz (mri_xyz (load_mri m))) as [same|e] eqn:Heq.
    + unfold ret at 1. apply IH; [exact Hwf'|].
      inversion Hbad as [? ? Hinc|]; subst; [|assumption].
      rewrite (eq_all_incompatible _ _ Hinc) in Heq. discriminate.
    + apply eq_all_raises in Heq. destruct Heq as [-> _]. reflexivity.
Qed.

(** ** Writing the columns *)

Lemma write_roi_flags_ok (roi_mask : list string) (roi_prefix : string)
    (brain_data : str_or_list) (roi_flag : list (list Z)) (w : world BData) :
  length roi_flag = length roi_mask ->
  write_roi_flags roi_mask roi_prefix brain_data roi_flag w
  = (Ok tt, masks_written roi_prefix brain_data (zip roi_mask roi_flag) w).
Proof.
  unfold write_roi_flags, enumerate, masks_written.
  assert (Hgen : forall pre flags, length flags = length roi_mask ->
    for_each (enumerate_from (length pre) roi_mask) tt (fun _ ir =>
      let roi_name := roi_name_of_mask roi_prefix ir.2 in
      print ("Adding " +:+ roi_name) ;;;
      flag <- lift (getitem (pre ++ flags) ir.1) ;;
      bdata_add_metadata roi_name flag ("1 = ROI " +:+ roi_name) brain_data) w
    = (Ok tt, foldl (mask_written roi_prefix brain_data) w (zip roi_mask flags))).
  { revert w. induction roi_mask as [|m l IH]; intros w pre [|f flags] Hlen;
      try discriminate; [reflexivity|].
    simpl in Hlen. injection Hlen as Hlen.
    cbn [enumerate_from for_each zip zip_with foldl]. unfold bind at 1. unfold bind at 1.
    unfold print at 1. unfold bind at 1. unfold lift at 1, getitem at 1.
    cbn [fst snd]. rewrite lookup_app_r by lia. rewrite Nat.sub_diag.
    cbn [lookup list_lookup]. unfold bdata_add_metadata at 1.
    specialize (IH (mask_written roi_prefix brain_data w (m, f)) (pre ++ [f]) flags Hlen).
    rewrite length_app in IH. cbn [length] in IH. rewrite Nat.add_1_r in IH.
    rewrite <- app_assoc in IH. cbn [app] in IH. exact IH. }
  intros Hlen. exact (Hgen [] roi_flag Hlen).
Qed.

Lemma masks_written_stdout (roi_prefix : string) (brain_data : str_or_list)
    (l : list (string * list Z)) (w : world BData) :
  w_stdout (masks_written roi_prefix brain_data l w)
  = w_stdout w ++ map (fun rf => "Adding " +:+ roi_name_of_mask roi_prefix rf.1) l.
Proof.
  unfold masks_written. revert w. induction l as [|rf l IH]; intros w; cbn [foldl map].
  - rewrite app_nil_r. reflexivity.
  - rewrite IH. unfold mask_written. cbn [w_stdout].
    rewrite <- app_assoc. reflexivity.
Qed.

Lemma np_vstack_same_length (rows : list (list Z)) (n : nat) :
  rows <> [] -> Forall (fun r => length r = n) rows -> np_vstack rows = Ok rows.
Proof.
  intros Hne Hall. destruct rows as [|r rs]; [congruence|].
  unfold np_vstack. inversion Hall as [|? ? Hr Hrs]; subst.
  rewrite (proj2 (forallb_forall _ _)); [reflexivity|].
  intros r' Hin. rewrite Forall_forall in Hrs.
  apply Nat.eqb_eq. apply Hrs. apply list_elem_of_In. exact Hin.
Qed.

End AddRoimask.

(** ** The matcher on well-formed input *)

Lemma lookup_map {A C} (f : A -> C) (l : list A) (i : nat) :
  map f l !! i = f <$> (l !! i).
Proof.
  revert i. induction l as [|x l IH]; intros [|i]; try reflexivity. apply IH.
Qed.

Lemma brute_force_length (S R : xyz_array) : length (brute_force S R) = length R.
Proof. unfold brute_force. apply length_map. Qed.

Lemma brute_force_binary (S R : xyz_array) : Forall binary (brute_force S R).
Proof.
  unfold brute_force. apply Forall_forall. intros v Hv.
  apply list_elem_of_In, in_map_iff in Hv. destruct Hv as (r & <- & _).
  destruct (existsb (array_equal r) S); [right | left]; reflexivity.
Qed.

Lemma brute_force_lookup (S R : xyz_array) (j : nat) (c : Z * Z * Z) :
  R !! j = Some c ->
  (In c S -> brute_force S R !! j = Some 1%Z) /\
  (~ In c S -> brute_force S R !! j = Some 0%Z).
Proof.
  intros Hj. unfold brute_force. rewrite lookup_map, Hj. cbn [fmap option_fmap option_map].
  destruct (existsb (array_equal c) S) eqn:Hhit.
  - apply existsb_array_equal in Hhit. split; [reflexivity | contradiction].
  - split; [|reflexivity]. intros Hin. apply existsb_array_equal in Hin. congruence.
Qed.

(** On a grid without repeated coordinates, matching the voxels of value
    1 of a 0/1 mask gives the mask back. *)
Lemma brute_force_ones (v : list Z) (R : xyz_array) :
  NoDup R -> length v = length R -> Forall binary v ->
  brute_force (ones_columns v R) R = v.
Proof.
  intros Hnd Hlen Hbin. apply list_eq. intros i.
  destruct (R !! i) as [c|] eqn:Hc.
  - destruct (brute_force_lookup (ones_columns v R) R i c Hc) as [Hyes Hno].
    assert (Hi : i < length v) by (rewrite Hlen; eapply lookup_lt_Some; exact Hc).
    destruct (lookup_lt_is_Some_2 v i Hi) as [x Hx]. rewrite Hx.
    rewrite Forall_forall in Hbin.
    assert (Hb : binary x) by (apply Hbin; eapply list_elem_of_lookup_2; exact Hx).
    destruct Hb as [-> | ->].
    + apply Hno. intros Hin. apply ones_columns_lookup in Hin.
      destruct Hin as (j & Hv & Hj).
      assert (j = i) by (eapply NoDup_lookup; eauto). subst j. congruence.
    + apply Hyes. apply ones_columns_lookup. exists i. auto.
  - rewrite (lookup_ge_None_2 v) by (rewrite Hlen; apply lookup_ge_None_1; exact Hc).
    apply lookup_ge_None_2. rewrite brute_force_length. apply lookup_ge_None_1. exact Hc.
Qed.

Lemma ones_columns_nonempty (v : list Z) (xyz : xyz_array) :
  length v = length xyz -> In 1%Z v -> ones_columns v xyz <> [].
Proof.
  intros Hlen Hin Hnil. apply list_elem_of_In, list_elem_of_lookup in Hin.
  destruct Hin as [j Hj].
  assert (Hi : j < length xyz) by (rewrite <- Hlen; eapply lookup_lt_Some; exact Hj).
  destruct (lookup_lt_is_Some_2 xyz j Hi) as [c Hc].
  assert (Hc' : In c (ones_columns v xyz)) by (apply ones_columns_lookup; eauto).
  rewrite Hnil in Hc'. exact Hc'.
Qed.

Section AddRoimaskPaths.
Context `{Collaborators}.

Lemma read_voxel_xyz_ok (brain_data : str_or_list) (xyz : list string) (R : xyz_array)
    (w : world BData) :
  (read_voxel_xyz brain_data xyz w).1 = Ok R ->
  read_voxel_xyz brain_data xyz w = (Ok R, w).
Proof.
  intros Hr. pose proof (read_voxel_xyz_world brain_data xyz w) as Hw.
  destruct (read_voxel_xyz brain_data xyz w) as [o w']. simpl in *. congruence.
Qed.

(** With masks of the size of the grid, [add_roimask] is the choice of
    lines 52-56 followed by the write-back. *)
Lemma add_roimask_same_shape (roi_mask : str_or_list) (roi_prefix : string)
    (brain_data : str_or_list) (xyz : list string) (return_roi_flag : bool)
    (R : xyz_array) (w : world BData) :
  (read_voxel_xyz brain_data xyz w).1 = Ok R ->
  Forall (mask_on_grid (length R)) (as_list roi_mask) ->
  add_roimask roi_mask roi_prefix brain_data xyz return_roi_flag w
  = (roi_flag <- roi_flags R (map mask_source (as_list roi_mask),
                              map (fun m => mri_v (load_mri m)) (as_list roi_mask),
                              forallb (same_grid R) (as_list roi_mask)) ;;
     write_roi_flags (as_list roi_mask) roi_prefix brain_data roi_flag ;;;
     ret (if return_roi_flag then Some roi_flag else None)) w.
Proof.
  intros Hread Hshape. unfold add_roimask. unfold bind at 1.
  rewrite (read_voxel_xyz_ok _ _ _ _ Hread).
  unfold bind at 1. rewrite (load_roi_masks_same_shape _ _ _ Hshape). reflexivity.
Qed.

Lemma forallb_same_grid (R : xyz_array) (masks : list string) :
  forallb (same_grid R) masks = true <-> Forall (fun m => mri_xyz (load_mri m) = R) masks.
Proof.
  rewrite forallb_forall, Forall_forall. unfold same_grid. split.
  - intros Hall m Hm. apply list_elem_of_In, Hall in Hm.
    apply bool_decide_eq_true_1 in Hm. exact Hm.
  - intros Hall m Hm. apply bool_decide_eq_true_2. apply Hall, list_elem_of_In. exact Hm.
Qed.

Lemma forallb_same_grid_false (R : xyz_array) (masks : list string) :
  forallb (same_grid R) masks = false <-> Exists (fun m => mri_xyz (load_mri m) <> R) masks.
Proof.
  induction masks as [|m l IH]; cbn [forallb].
  - split; [discriminate | intros Hex; inversion Hex].
  - rewrite andb_false_iff, IH. unfold same_grid at 1. split.
    + intros [Hm | Hl]; [left | right; exact Hl].
      apply bool_decide_eq_false_1 in Hm. exact Hm.
    + intros Hex. inversion Hex as [? ? Hm | ? ? Hl]; subst; [left | right; exact Hl].
      apply bool_decide_eq_false_2. exact Hm.
Qed.

(** The fast path: the voxel values are stacked and written, and nothing
    but the [Adding] lines is printed. *)
Lemma add_roimask_fast (roi_mask : str_or_list) (roi_prefix : string)
    (brain_data : str_or_list) (xyz : list string) (return_roi_flag : bool)
    (R : xyz_array) (w : world BData) :
  (read_voxel_xyz brain_data xyz w).1 = Ok R ->
  as_list roi_mask <> [] ->
  Forall (mask_on_grid (length R)) (as_list roi_mask) ->
  Forall (fun m => mri_xyz (load_mri m) = R) (as_list roi_mask) ->
  add_roimask roi_mask roi_prefix brain_data xyz return_roi_flag w
  = (Ok (if return_roi_flag
         then Some (map (fun m => mri_v (load_mri m)) (as_list roi_mask)) else None),
     masks_written roi_prefix brain_data
       (zip (as_list roi_mask) (map (fun m => mri_v (load_mri m)) (as_list roi_mask))) w).
Proof.
  intros Hread Hne Hshape Hsame.
  rewrite (add_roimask_same_shape _ _ _ _ _ R w Hread Hshape).
  rewrite (proj2 (forallb_same_grid R _) Hsame).
  unfold roi_flags. unfold bind at 1. unfold lift at 1.
  rewrite (np_vstack_same_length _ (length R)).
  - unfold bind at 1. rewrite write_roi_flags_ok by apply length_map. reflexivity.
  - intros Hnil. apply Hne. destruct (as_list roi_mask); [reflexivity | discriminate].
  - apply Forall_forall. intros r Hr.
    apply list_elem_of_In, in_map_iff in Hr. destruct Hr as (m & <- & Hm).
    apply list_elem_of_In in Hm. apply (proj1 (Forall_forall _ _) Hshape m Hm).
Qed.

(** The slow path: the matcher runs once, on the ROI sources of all the
    masks. *)
Lemma add_roimask_slow (roi_mask : str_or_list) (roi_prefix : string)
    (brain_data : str_or_list) (xyz : list string) (return_roi_flag : bool)
    (R : xyz_array) (w : world BData) :
  (read_voxel_xyz brain_data xyz w).1 = Ok R ->
  Forall (mask_on_grid (length R)) (as_list roi_mask) ->
  Exists (fun m => mri_xyz (load_mri m) <> R) (as_list roi_mask) ->
  add_roimask roi_mask roi_prefix brain_data xyz return_roi_flag w
  = (roi_flag <- get_roiflag (map mask_source (as_list roi_mask)) R ;;
     write_roi_flags (as_list roi_mask) roi_prefix brain_data roi_flag ;;;
     ret (if return_roi_flag then Some roi_flag else None)) w.
Proof.
  intros Hread Hshape Hdiff.
  rewrite (add_roimask_same_shape _ _ _ _ _ R w Hread Hshape).
  rewrite (proj2 (forallb_same_grid_false R _) Hdiff). reflexivity.
Qed.

End AddRoimaskPaths.

(** * The claims about the matcher *)

(** C1. For a non-empty ROI coordinate set S, [get_roiflag] returns one row
    over the reference grid R whose entry j is 1 exactly when the j-th
    coordinate of R equals, on all three axes, some coordinate of S, and is
    0 otherwise.  The row is the one of the brute-force all-pairs matcher:
    the bounding-box filter drops no true match.  For
    R = [(0,0,0),(1,0,0),(2,0,0)] and S = [(1,0,0)] the row is [0,1,0]. *)
Theorem get_roiflag_exact_match {B} (R S : xyz_array) (w : world B) :
  S <> [] ->
  (get_roiflag [S] R w).1 = Ok [brute_force S R]
  /\ length (brute_force S R) = length R
  /\ (forall j c, R !! j = Some c ->
        (brute_force S R !! j = Some 1%Z <-> In c S)
        /\ (brute_force S R !! j = Some 0%Z <-> ~ In c S))
  /\ (R = grid3 -> S = [(1, 0, 0)%Z] -> brute_force S R = [0; 1; 0]%Z).
Proof.
  intros HS. split; [|split; [|split]].
  - rewrite get_roiflag_all_nonempty by (constructor; [exact HS | constructor]).
    reflexivity.
  - apply brute_force_length.
  - intros j c Hj. destruct (brute_force_lookup S R j c Hj) as [Hyes Hno].
    split; split.
    + intros H1. destruct (decide (c ∈ S)) as [Hin|Hout].
      * apply list_elem_of_In. exact Hin.
      * rewrite Hno in H1 by (intros Hin; apply Hout, list_elem_of_In; exact Hin).
        discriminate.
    + exact Hyes.
    + intros H0 Hin. rewrite (Hyes Hin) in H0. discriminate.
    + exact Hno.
  - intros -> ->. reflexivity.
Qed.

Lemma get_roiflag_exact_match_witness :
  [(1, 0, 0)%Z] <> [] /\ (get_roiflag [[(1, 0, 0)%Z]] grid3 (World tt [])).1 = Ok [[0; 1; 0]%Z].
Proof.
  split; [discriminate|].
  exact (proj1 (get_roiflag_exact_match grid3 [(1, 0, 0)%Z] (World tt [])
                  ltac:(discriminate))).
Defined.

Lemma Exists_first_empty (Ss : list xyz_array) :
  Exists (fun S => S = []) Ss ->
  exists good rest, Ss = good ++ [] :: rest /\ Forall (fun S => S <> []) good.
Proof.
  induction Ss as [|S Ss IH]; intros Hex; [inversion Hex|].
  destruct S as [|c S].
  - exists [], Ss. split; [reflexivity | constructor].
  - inversion Hex as [? ? Hnil | ? ? Htail]; subst; [discriminate|].
    destruct (IH Htail) as (good & rest & -> & Hgood).
    exists ((c :: S) :: good), rest. split; [reflexivity|].
    constructor; [discriminate | exact Hgood].
Qed.

(** C2. The specification asks for an all-zero row and no error when the
    ROI coordinate set is empty.  The code does not do that: as soon as one
    ROI of the list is empty, [min] of line 111 is applied to an empty
    sequence and [get_roiflag] raises ValueError; no matrix is returned. *)
Theorem get_roiflag_empty_roi_raises {B} (Ss : list xyz_array) (R : xyz_array)
    (w : world B) :
  Exists (fun S => S = []) Ss ->
  (get_roiflag Ss R w).1 = Raise ValueError.
Proof.
  intros Hex. destruct (Exists_first_empty Ss Hex) as (good & rest & -> & Hgood).
  rewrite (get_roiflag_first_empty good rest R w Hgood). reflexivity.
Qed.

Lemma get_roiflag_empty_roi_raises_witness :
  Exists (fun S : xyz_array => S = []) [[]]
  /\ (get_roiflag [[]] grid3 (World tt [])).1 = Raise ValueError.
Proof.
  split; [left; reflexivity|].
  apply (get_roiflag_empty_roi_raises [[]] grid3 (World tt [])). left. reflexivity.
Defined.

(** * The claims about add_roimask *)

Lemma ones_columns_filter (v : list Z) (xyz : xyz_array) :
  ones_columns v xyz
  = map snd (filter (fun vc : Z * (Z * Z * Z) => vc.1 = 1%Z) (zip v xyz)).
Proof.
  revert xyz. induction v as [|x v IH]; intros [|c cs]; try reflexivity.
  cbn [ones_columns zip zip_with].
  destruct (Z.eqb_spec x 1) as [->|Hne].
  - rewrite filter_cons_True by reflexivity. cbn [map snd]. f_equal. apply IH.
  - rewrite filter_cons_False by exact Hne. apply IH.
Qed.

Section AddRoimaskClaims.
Context `{Collaborators}.

(** C3, as the code has it.  Take at least one mask, each with as many
    voxels as the reference grid.  [add_roimask] computes one boolean: it
    holds exactly when the full coordinate array of every mask equals the
    reference grid, coordinate by coordinate in the same order.  When it
    holds the matcher is not run: the matrix is the voxel values of the
    masks stacked in input order, and only the [Adding] lines are printed.
    When it fails, [get_roiflag] runs once on the ROI sources of all the
    masks, in input order, and its result is the matrix. *)
Theorem add_roimask_all_or_nothing (roi_mask : str_or_list) (roi_prefix : string)
    (brain_data : str_or_list) (xyz : list string) (return_roi_flag : bool)
    (R : xyz_array) (w : world BData) :
  (read_voxel_xyz brain_data xyz w).1 = Ok R ->
  as_list roi_mask <> [] ->
  Forall (mask_on_grid (length R)) (as_list roi_mask) ->
  let masks := as_list roi_mask in
  let mask_v_all := map (fun m => mri_v (load_mri m)) masks in
  (forallb (same_grid R) masks = true
   <-> Forall (fun m => mri_xyz (load_mri m) = R) masks)
  /\ add_roimask roi_mask roi_prefix brain_data xyz return_roi_flag w
     = (if forallb (same_grid R) masks
        then (Ok (if return_roi_flag then Some mask_v_all else None),
              masks_written roi_prefix brain_data (zip masks mask_v_all) w)
        else (roi_flag <- get_roiflag (map mask_source masks) R ;;
              write_roi_flags masks roi_prefix brain_data roi_flag ;;;
              ret (if return_roi_flag then Some roi_flag else None)) w)
  /\ w_stdout (masks_written roi_prefix brain_data (zip masks mask_v_all) w)
     = w_stdout w ++ map (fun m => "Adding " +:+ roi_name_of_mask roi_prefix m) masks.
Proof.
  intros Hread Hne Hshape masks mask_v_all. split; [apply forallb_same_grid|]. split.
  - destruct (forallb (same_grid R) masks) eqn:Hb.
    + apply (add_roimask_fast _ _ _ _ _ R w Hread Hne Hshape).
      apply forallb_same_grid. exact Hb.
    + apply (add_roimask_slow _ _ _ _ _ R w Hread Hshape).
      apply forallb_same_grid_false. exact Hb.
  - rewrite masks_written_stdout. f_equal.
    subst mask_v_all. generalize masks. intros l. induction l as [|m l IH]; [reflexivity|].
    cbn [map zip zip_with]. f_equal. exact IH.
Qed.

(** C9. The comparison of line 49 is between the reference grid and the
    full coordinate array of the mask.  When some mask has a number of
    voxels that differs from that of the grid, neither of the two being 1,
    [add_roimask] raises at that comparison: nothing is printed, so
    [get_roiflag] was not entered, and nothing is written. *)
Theorem add_roimask_incompatible_shape_raises (roi_mask : str_or_list)
    (roi_prefix : string) (brain_data : str_or_list) (xyz : list string)
    (return_roi_flag : bool) (R : xyz_array) (w : world BData) :
  (read_voxel_xyz brain_data xyz w).1 = Ok R ->
  Forall (fun m => length (mri_v (load_mri m)) = length (mri_xyz (load_mri m)))
         (as_list roi_mask) ->
  Exists (fun m => incompatible R (mri_xyz (load_mri m))) (as_list roi_mask) ->
  add_roimask roi_mask roi_prefix brain_data xyz return_roi_flag w
  = (Raise AttributeError, w).
Proof.
  intros Hread Hwf Hbad. unfold add_roimask. unfold bind at 1.
  rewrite (read_voxel_xyz_ok _ _ _ _ Hread). unfold bind at 1.
  rewrite (load_roi_masks_incompatible R _ w Hwf Hbad). reflexivity.
Qed.

(** C5, as the code has it.  The ROI source of a mask consists of exactly
    the columns of the coordinate array whose voxel value equals 1, in
    their order: a coordinate is in it exactly when it is the coordinate of
    a voxel of value 1.  These are the arrays handed to the matcher when it
    runs. *)
Theorem roi_source_keeps_value_one (roi_mask : str_or_list) (roi_prefix : string)
    (brain_data : str_or_list) (xyz : list string) (return_roi_flag : bool)
    (R : xyz_array) (w : world BData) :
  (read_voxel_xyz brain_data xyz w).1 = Ok R ->
  Forall (mask_on_grid (length R)) (as_list roi_mask) ->
  Exists (fun m => mri_xyz (load_mri m) <> R) (as_list roi_mask) ->
  add_roimask roi_mask roi_prefix brain_data xyz return_roi_flag w
  = (roi_flag <- get_roiflag (map mask_source (as_list roi_mask)) R ;;
     write_roi_flags (as_list roi_mask) roi_prefix brain_data roi_flag ;;;
     ret (if return_roi_flag then Some roi_flag else None)) w
  /\ Forall (fun m =>
       roi_source (mri_v (load_mri m)) (mri_xyz (load_mri m)) = Ok (mask_source m)
       /\ mask_source m
          = map snd (filter (fun vc : Z * (Z * Z * Z) => vc.1 = 1%Z)
                            (zip (mri_v (load_mri m)) (mri_xyz (load_mri m))))
       /\ forall c, In c (mask_source m) <->
            exists j, mri_v (load_mri m) !! j = Some 1%Z
                      /\ mri_xyz (load_mri m) !! j = Some c)
     (as_list roi_mask).
Proof.
  intros Hread Hshape Hdiff.
  split; [apply (add_roimask_slow _ _ _ _ _ R w Hread Hshape Hdiff)|].
  apply Forall_forall. intros m Hm.
  apply (proj1 (Forall_forall _ _) Hshape) in Hm. destruct Hm as [Hv Hx].
  split; [apply roi_source_ok; congruence|]. split; [|apply ones_columns_lookup].
  apply ones_columns_filter.
Qed.

(** C4, as the code has it.  Let every mask lie on the reference grid
    (same coordinates, same order), let the grid have no repeated
    coordinate, and let every mask hold only the values 0 and 1, with at
    least one 1.  Then the matcher, run on the ROI sources of these masks,
    returns the matrix the fast path returns: the stacked voxel values. *)
Theorem fast_path_agrees_with_matcher (roi_mask : str_or_list) (roi_prefix : string)
    (brain_data : str_or_list) (xyz : list string) (R : xyz_array) (w : world BData) :
  (read_voxel_xyz brain_data xyz w).1 = Ok R ->
  as_list roi_mask <> [] ->
  NoDup R ->
  Forall (fun m => mri_xyz (load_mri m) = R
                   /\ length (mri_v (load_mri m)) = length R
                   /\ Forall binary (mri_v (load_mri m))
                   /\ In 1%Z (mri_v (load_mri m))) (as_list roi_mask) ->
  (add_roimask roi_mask roi_prefix brain_data xyz true w).1
  = Ok (Some (map (fun m => mri_v (load_mri m)) (as_list roi_mask)))
  /\ (get_roiflag (map mask_source (as_list roi_mask)) R w).1
     = Ok (map (fun m => mri_v (load_mri m)) (as_list roi_mask)).
Proof.
  intros Hread Hne Hnd Hall. rewrite Forall_forall in Hall. split.
  - rewrite (add_roimask_fast _ _ _ _ _ R w Hread Hne); [reflexivity| |].
    + apply Forall_forall. intros m Hm. destruct (Hall m Hm) as (Hx & Hv & _).
      split; [exact Hv | rewrite Hx; reflexivity].
    + apply Forall_forall. intros m Hm. apply (Hall m Hm).
  - rewrite get_roiflag_all_nonempty.
    + cbn [fst]. f_equal. rewrite map_map. apply map_ext_in. intros m Hm.
      apply list_elem_of_In in Hm. destruct (Hall m Hm) as (Hx & Hv & Hb & _).
      unfold mask_source. rewrite Hx. apply brute_force_ones; assumption.
    + apply Forall_forall. intros S HS.
      apply list_elem_of_In, in_map_iff in HS. destruct HS as (m & <- & Hm).
      apply list_elem_of_In in Hm. destruct (Hall m Hm) as (Hx & Hv & _ & H1).
      apply ones_columns_nonempty; [rewrite Hx; exact Hv | exact H1].
Qed.

(** C6, as the code has it.  On the slow path, for K non-empty ROI
    coordinate sets and a grid of N voxels, the matrix of [get_roiflag]
    has K rows of N entries, every entry is 0 or 1, and row i is a function
    of ROI i and the grid alone.  On the fast path, for K >= 1 masks that
    lie on the grid, the matrix has K rows of N entries and row i is the
    array of voxel values of mask i: its entries are 0 or 1 exactly when
    the values of the masks are. *)
Theorem roi_flag_shape (Ss : list xyz_array) (roi_mask : str_or_list)
    (roi_prefix : string) (brain_data : str_or_list) (xyz : list string)
    (R : xyz_array) (w : world BData) :
  Forall (fun S => S <> []) Ss ->
  (read_voxel_xyz brain_data xyz w).1 = Ok R ->
  as_list roi_mask <> [] ->
  Forall (fun m => mri_xyz (load_mri m) = R /\ length (mri_v (load_mri m)) = length R)
         (as_list roi_mask) ->
  (exists slow,
      (get_roiflag Ss R w).1 = Ok slow
      /\ length slow = length Ss
      /\ Forall (fun row => length row = length R /\ Forall binary row) slow
      /\ forall i S, Ss !! i = Some S -> slow !! i = Some (brute_force S R))
  /\ (exists fast,
      (add_roimask roi_mask roi_prefix brain_data xyz true w).1 = Ok (Some fast)
      /\ length fast = length (as_list roi_mask)
      /\ Forall (fun row => length row = length R) fast
      /\ (forall i m, as_list roi_mask !! i = Some m ->
             fast !! i = Some (mri_v (load_mri m)))
      /\ (Forall (Forall binary) fast
          <-> Forall (fun m => Forall binary (mri_v (load_mri m))) (as_list roi_mask))).
Proof.
  intros HSs Hread Hne Hall. split.
  - exists (map (fun S => brute_force S R) Ss).
    rewrite get_roiflag_all_nonempty by exact HSs. split; [reflexivity|].
    split; [apply length_map|]. split.
    + apply Forall_forall. intros row Hrow.
      apply list_elem_of_In, in_map_iff in Hrow. destruct Hrow as (S & <- & _).
      split; [apply brute_force_length | apply brute_force_binary].
    + intros i S Hi. rewrite lookup_map, Hi. reflexivity.
  - exists (map (fun m => mri_v (load_mri m)) (as_list roi_mask)).
    rewrite Forall_forall in Hall.
    rewrite (add_roimask_fast _ _ _ _ _ R w Hread Hne).
    + split; [reflexivity|]. split; [apply length_map|]. split; [|split].
      * apply Forall_forall. intros row Hrow.
        apply list_elem_of_In, in_map_iff in Hrow. destruct Hrow as (m & <- & Hm).
        apply list_elem_of_In in Hm. apply (Hall m Hm).
      * intros i m Hi. rewrite lookup_map, Hi. reflexivity.
      * rewrite !Forall_forall. split.
        -- intros Hb m Hm. apply Hb. apply list_elem_of_In, in_map_iff.
           exists m. split; [reflexivity | apply list_elem_of_In; exact Hm].
        -- intros Hb row Hrow.
           apply list_elem_of_In, in_map_iff in Hrow. destruct Hrow as (m & <- & Hm).
           apply Hb. apply list_elem_of_In. exact Hm.
    + apply Forall_forall. intros m Hm. destruct (Hall m Hm) as (Hx & Hv).
      split; [exact Hv | rewrite Hx; reflexivity].
    + apply Forall_forall. intros m Hm. apply (Hall m Hm).
Qed.

End AddRoimaskClaims.

(** ** Runs of add_roimask on the example masks *)

Lemma add_roimask_all_or_nothing_witness :
  let C := mask_collaborators mask_files in
  let roi_mask := StrList ["same.nii"; "swapped.nii"] in
  let w := world_of_grid grid2 in
  (@read_voxel_xyz C default_brain_data default_xyz w).1 = Ok grid2
  /\ as_list roi_mask <> []
  /\ Forall (@mask_on_grid C (length grid2)) (as_list roi_mask)
  /\ (@add_roimask C roi_mask "roi" default_brain_data default_xyz true w).1
     = Ok (Some [[1; 0]; [1; 0]]%Z).
Proof.
  intros C roi_mask w.
  assert (Hread : (@read_voxel_xyz C default_brain_data default_xyz w).1 = Ok grid2)
    by reflexivity.
  assert (Hne : as_list roi_mask <> []) by discriminate.
  assert (Hshape : Forall (@mask_on_grid C (length grid2)) (as_list roi_mask))
    by (repeat constructor).
  refine (conj Hread (conj Hne (conj Hshape _))).
  pose proof (@add_roimask_all_or_nothing C roi_mask "roi" default_brain_data
                default_xyz true grid2 w Hread Hne Hshape) as T.
  cbv zeta in T. destruct T as (_ & T & _). rewrite T. vm_compute. reflexivity.
Defined.

(** C3 as stated fails twice.  The comparison is on the full coordinate
    array of the mask, not on its ROI source: the ROI source of [same.nii]
    is one voxel and differs from the grid, and the fast path is taken
    (only the [Adding] line is printed).  And a mask that fails the
    comparison does not always reach the matcher: [cropped.nii] differs
    from the grid, the matcher would return a matrix for the two masks, and
    the code raises at the comparison, with nothing printed. *)
Lemma add_roimask_decision_counterexample :
  let C := mask_collaborators mask_files in
  let w := world_of_grid grid2 in
  (@mask_source C "same.nii" <> grid2
   /\ @add_roimask C (Str "same.nii") "roi" default_brain_data default_xyz true w
      = (Ok (Some [[1; 0]]%Z),
         World (bdata_of_grid grid2
                  ++ [Column "roi_same" [1; 0]%Z "1 = ROI roi_same" default_brain_data])
               ["Adding roi_same"]))
  /\ (mri_xyz (files_mri mask_files "cropped.nii") <> grid2
      /\ @mask_source C "cropped.nii" <> grid2
      /\ @add_roimask C (StrList ["same.nii"; "cropped.nii"]) "roi" default_brain_data
           default_xyz true w
         = (Raise AttributeError, w)
      /\ (get_roiflag (map (@mask_source C) ["same.nii"; "cropped.nii"]) grid2 w).1
         = Ok [[1; 0]; [1; 1]]%Z).
Proof.
  intros C w. repeat split; try discriminate; vm_compute; reflexivity.
Qed.

Lemma add_roimask_incompatible_shape_raises_witness :
  let C := mask_collaborators mask_files in
  let roi_mask := StrList ["same.nii"; "cropped.nii"] in
  let w := world_of_grid grid2 in
  (@read_voxel_xyz C default_brain_data default_xyz w).1 = Ok grid2
  /\ Forall (fun m => length (mri_v (@load_mri C m)) = length (mri_xyz (@load_mri C m)))
            (as_list roi_mask)
  /\ Exists (fun m => incompatible grid2 (mri_xyz (@load_mri C m))) (as_list roi_mask)
  /\ @add_roimask C roi_mask "roi" default_brain_data default_xyz true w
     = (Raise AttributeError, w).
Proof.
  intros C roi_mask w.
  assert (Hread : (@read_voxel_xyz C default_brain_data default_xyz w).1 = Ok grid2)
    by reflexivity.
  assert (Hwf : Forall (fun m => length (mri_v (@load_mri C m))
                                 = length (mri_xyz (@load_mri C m))) (as_list roi_mask))
    by (repeat constructor).
  assert (Hbad : Exists (fun m => incompatible grid2 (mri_xyz (@load_mri C m)))
                        (as_list roi_mask)).
  { right. left. unfold incompatible. vm_compute. repeat split; lia. }
  refine (conj Hread (conj Hwf (conj Hbad _))).
  exact (@add_roimask_incompatible_shape_raises C roi_mask "roi" default_brain_data
           default_xyz true grid2 w Hread Hwf Hbad).
Defined.

(** C5 as stated fails: the voxel (1,0,0) of [swapped.nii] has the nonzero
    value 2, and it is not in the ROI source handed to the matcher, which
    holds one voxel; its flag is 0. *)
Lemma roi_source_nonzero_counterexample :
  let C := mask_collaborators mask_files in
  let m := files_mri mask_files "swapped.nii" in
  nonzero_columns (mri_v m) (mri_xyz m) = [(1, 0, 0); (0, 0, 0)]%Z
  /\ roi_source (mri_v m) (mri_xyz m) = Ok [(0, 0, 0)%Z]
  /\ @add_roimask C (Str "swapped.nii") "roi" default_brain_data default_xyz true
       (world_of_grid grid2)
     = (Ok (Some [[1; 0]]%Z),
        World (bdata_of_grid grid2
                 ++ [Column "roi_swapped" [1; 0]%Z "1 = ROI roi_swapped" default_brain_data])
              ["EPI voxel size 2"; "getROIflag: ROI1 (Voxel Size 1)";
               "Adding roi_swapped"]).
Proof.
  intros C m. repeat split; vm_compute; reflexivity.
Qed.

Lemma roi_source_keeps_value_one_witness :
  let C := mask_collaborators mask_files in
  let w := world_of_grid grid2 in
  (@read_voxel_xyz C default_brain_data default_xyz w).1 = Ok grid2
  /\ Forall (@mask_on_grid C (length grid2)) (as_list (Str "swapped.nii"))
  /\ Exists (fun m => mri_xyz (@load_mri C m) <> grid2) (as_list (Str "swapped.nii"))
  /\ @roi_source (mri_v (@load_mri C "swapped.nii")) (mri_xyz (@load_mri C "swapped.nii"))
     = Ok (@mask_source C "swapped.nii").
Proof.
  intros C w.
  assert (Hread : (@read_voxel_xyz C default_brain_data default_xyz w).1 = Ok grid2)
    by reflexivity.
  assert (Hshape : Forall (@mask_on_grid C (length grid2)) (as_list (Str "swapped.nii")))
    by (repeat constructor).
  assert (Hdiff : Exists (fun m => mri_xyz (@load_mri C m) <> grid2)
                         (as_list (Str "swapped.nii")))
    by (left; discriminate).
  refine (conj Hread (conj Hshape (conj Hdiff _))).
  pose proof (@roi_source_keeps_value_one C (Str "swapped.nii") "roi" default_brain_data
                default_xyz true grid2 w Hread Hshape Hdiff) as [_ T].
  inversion T as [|? ? (T1 & _) _]. exact T1.
Defined.

(** C4 as stated fails: [two.nii] lies on the grid, the fast path returns
    its values [1, 2], and the matcher on the same input returns [1, 0]. *)
Lemma fast_path_disagrees_counterexample :
  let C := mask_collaborators mask_files in
  let w := world_of_grid grid2 in
  mri_xyz (@load_mri C "two.nii") = grid2
  /\ (@add_roimask C (Str "two.nii") "roi" default_brain_data default_xyz true w).1
     = Ok (Some [[1; 2]]%Z)
  /\ (get_roiflag [@mask_source C "two.nii"] grid2 w).1 = Ok [[1; 0]%Z].
Proof.
  intros C w. repeat split; vm_compute; reflexivity.
Qed.

Lemma fast_path_agrees_with_matcher_witness :
  let C := mask_collaborators mask_files in
  let w := world_of_grid grid2 in
  (@read_voxel_xyz C default_brain_data default_xyz w).1 = Ok grid2
  /\ as_list (Str "same.nii") <> []
  /\ NoDup grid2
  /\ Forall (fun m => mri_xyz (@load_mri C m) = grid2
                      /\ length (mri_v (@load_mri C m)) = length grid2
                      /\ Forall binary (mri_v (@load_mri C m))
                      /\ In 1%Z (mri_v (@load_mri C m))) (as_list (Str "same.nii"))
  /\ (get_roiflag (map (@mask_source C) (as_list (Str "same.nii"))) grid2 w).1
     = Ok [[1; 0]%Z].
Proof.
  intros C w.
  assert (Hread : (@read_voxel_xyz C default_brain_data default_xyz w).1 = Ok grid2)
    by reflexivity.
  assert (Hne : as_list (Str "same.nii") <> []) by discriminate.
  assert (Hnd : NoDup grid2).
  { unfold grid2. repeat constructor; rewrite ?list_elem_of_In; simpl; intuition discriminate. }
  assert (Hall : Forall (fun m => mri_xyz (@load_mri C m) = grid2
                      /\ length (mri_v (@load_mri C m)) = length grid2
                      /\ Forall binary (mri_v (@load_mri C m))
                      /\ In 1%Z (mri_v (@load_mri C m))) (as_list (Str "same.nii"))).
  { constructor; [|constructor]. repeat split.
    - constructor; [right; reflexivity|]. constructor; [left; reflexivity | constructor].
    - left. reflexivity. }
  refine (conj Hread (conj Hne (conj Hnd (conj Hall _)))).
  exact (proj2 (@fast_path_agrees_with_matcher C (Str "same.nii") "roi" default_brain_data
                  default_xyz grid2 w Hread Hne Hnd Hall)).
Defined.

(** C6 as stated fails on the fast path: the matrix of [two.nii] has the
    entry 2. *)
Lemma roi_flag_not_binary_counterexample :
  let C := mask_collaborators mask_files in
  (@add_roimask C (Str "two.nii") "roi" default_brain_data default_xyz true
     (world_of_grid grid2)).1 = Ok (Some [[1; 2]]%Z)
  /\ ~ Forall (Forall binary) [[1; 2]]%Z.
Proof.
  intros C. split; [vm_compute; reflexivity|].
  intros Hb. inversion Hb as [|? ? Hrow _]; subst.
  inversion Hrow as [|? ? _ Hrow']; subst.
  inversion Hrow' as [|? ? [H2 | H2] _]; discriminate.
Qed.

Lemma roi_flag_shape_witness :
  let C := mask_collaborators mask_files in
  let w := world_of_grid grid2 in
  Forall (fun S : xyz_array => S <> []) [[(1, 0, 0)%Z]]
  /\ (@read_voxel_xyz C default_brain_data default_xyz w).1 = Ok grid2
  /\ as_list (Str "same.nii") <> []
  /\ Forall (fun m => mri_xyz (@load_mri C m) = grid2
                      /\ length (mri_v (@load_mri C m)) = length grid2)
            (as_list (Str "same.nii"))
  /\ exists slow, (get_roiflag [[(1, 0, 0)%Z]] grid2 w).1 = Ok slow
                  /\ length slow = 1.
Proof.
  intros C w.
  assert (HSs : Forall (fun S : xyz_array => S <> []) [[(1, 0, 0)%Z]])
    by (constructor; [discriminate | constructor]).
  assert (Hread : (@read_voxel_xyz C default_brain_data default_xyz w).1 = Ok grid2)
    by reflexivity.
  assert (Hne : as_list (Str "same.nii") <> []) by discriminate.
  assert (Hall : Forall (fun m => mri_xyz (@load_mri C m) = grid2
                      /\ length (mri_v (@load_mri C m)) = length grid2)
            (as_list (Str "same.nii")))
    by (constructor; [split; reflexivity | constructor]).
  refine (conj HSs (conj Hread (conj Hne (conj Hall _)))).
  destruct (@roi_flag_shape C [[(1, 0, 0)%Z]] (Str "same.nii") "roi" default_brain_data
              default_xyz grid2 w HSs Hread Hne Hall) as [(slow & H1 & H2 & _) _].
  exists slow. split; assumption.
Defined.

(** ** The annotation loop *)

Lemma foldl_add_as_int (bs : list bool) (a : Z) :
  (a <= foldl Z.add a (as_int bs))%Z
  /\ (foldl Z.add a (as_int bs) = a <-> Forall (fun b => b = false) bs).
Proof.
  revert a. induction bs as [|b bs IH]; intros a; cbn [as_int map foldl].
  - split; [lia|]. split; [constructor | reflexivity].
  - destruct (IH (a + (if b then 1 else 0))%Z) as [Hle Hiff]. fold (as_int bs) in *.
    split; [destruct b; lia|]. split.
    + intros Heq. destruct b; [lia|]. constructor; [reflexivity|].
      apply Hiff. rewrite Heq. lia.
    + intros Hall. inversion Hall as [|? ? -> Hall']; subst.
      rewrite Z.add_0_r in *. apply Hiff. exact Hall'.
Qed.

Lemma region_matches_In (labels : list Z) (i : nat) :
  region_matches labels i = true <-> In (Z.of_nat i) labels.
Proof.
  unfold region_matches, py_sum, annot_flag.
  destruct (foldl_add_as_int (map (fun l => (l =? Z.of_nat i)%Z) labels) 0%Z) as [_ Hiff].
  rewrite negb_true_iff, Z.eqb_neq, Hiff. split.
  - intros Hnot. destruct (decide (Z.of_nat i ∈ labels)) as [Hin|Hout].
    + apply list_elem_of_In. exact Hin.
    + exfalso. apply Hnot. apply Forall_forall. intros b Hb.
      apply list_elem_of_In, in_map_iff in Hb. destruct Hb as (l & <- & Hl).
      apply Z.eqb_neq. intros ->. apply Hout, list_elem_of_In. exact Hl.
  - intros Hin Hall. rewrite Forall_forall in Hall.
    assert (Ht : (Z.of_nat i =? Z.of_nat i)%Z = false).
    { apply Hall. apply list_elem_of_In, in_map_iff. exists (Z.of_nat i). auto. }
    rewrite Z.eqb_refl in Ht. discriminate.
Qed.

Lemma enumerate_from_lookup {A} (l : list A) (k i : nat) (x : A) :
  In (i, x) (enumerate_from k l) <-> k <= i /\ l !! (i - k) = Some x.
Proof.
  revert k. induction l as [|y l IH]; intros k; cbn [enumerate_from In].
  - split; [tauto | intros [_ Hl]; discriminate].
  - rewrite IH. split.
    + intros [[= <- <-] | [Hk Hl]].
      * split; [lia|]. rewrite Nat.sub_diag. reflexivity.
      * split; [lia|]. replace (i - k) with (S (i - S k)) by lia. exact Hl.
    + intros [Hk Hl]. destruct (decide (i = k)) as [->|Hne].
      * left. rewrite Nat.sub_diag in Hl. injection Hl as <-. reflexivity.
      * right. split; [lia|]. replace (i - k) with (S (i - S k)) in Hl by lia. exact Hl.
Qed.

Lemma infer_hemi_cases (vertex_data : str_or_list) :
  (py_in "Left" vertex_data = true -> infer_hemi vertex_data = Ok "lh")
  /\ (py_in "Left" vertex_data = false -> py_in "Right" vertex_data = true ->
      infer_hemi vertex_data = Ok "rh")
  /\ (py_in "Left" vertex_data = false -> py_in "Right" vertex_data = false ->
      infer_hemi vertex_data = Raise ValueError).
Proof.
  unfold infer_hemi. repeat split; intros H1; try intros H2; rewrite H1; try rewrite H2;
    reflexivity.
Qed.

Section AddRoilabel.
Context `{Collaborators}.

(** A region without a vertex is skipped, whatever the destination. *)
Lemma annot_region_skip (labels : list Z) (vertex_data : str_or_list) (prefix : string)
    (iname : nat * string) (w : world BData) :
  region_matches labels iname.1 = false ->
  annot_region labels vertex_data prefix iname w
  = (Ok tt, printed w [not_found_line iname.2]).
Proof.
  unfold region_matches, annot_region. intros Hz. apply negb_false_iff in Hz.
  rewrite Hz. reflexivity.
Qed.

Lemma annot_region_write (labels : list Z) (vertex_data : str_or_list) (prefix hemi : string)
    (iname : nat * string) (w : world BData) :
  region_matches labels iname.1 = true ->
  infer_hemi vertex_data = Ok hemi ->
  annot_region labels vertex_data prefix iname w
  = (Ok tt, World (region_written labels vertex_data prefix hemi (w_bdata w) iname)
                  (w_stdout w)).
Proof.
  unfold region_matches, annot_region. intros Hz Hh. apply negb_true_iff in Hz.
  rewrite Hz. unfold bind, lift. rewrite Hh. reflexivity.
Qed.

Lemma annot_region_raise (labels : list Z) (vertex_data : str_or_list) (prefix : string)
    (iname : nat * string) (w : world BData) :
  region_matches labels iname.1 = true ->
  infer_hemi vertex_data = Raise ValueError ->
  annot_region labels vertex_data prefix iname w = (Raise ValueError, w).
Proof.
  unfold region_matches, annot_region. intros Hz Hh. apply negb_true_iff in Hz.
  rewrite Hz. unfold bind, lift. rewrite Hh. reflexivity.
Qed.

Lemma annot_loop_hemi (labels : list Z) (vertex_data : str_or_list) (prefix hemi : string)
    (l : list (nat * string)) (w : world BData) :
  infer_hemi vertex_data = Ok hemi ->
  for_each l tt (fun _ iname => annot_region labels vertex_data prefix iname) w
  = (Ok tt,
     World (foldl (region_written labels vertex_data prefix hemi) (w_bdata w)
              (filter (fun iname : nat * string => region_matches labels iname.1 = true) l))
           (w_stdout w
              ++ map (fun iname : nat * string => not_found_line iname.2)
                   (filter (fun iname : nat * string => region_matches labels iname.1 = false)
                           l))).
Proof.
  intros Hh. revert w. induction l as [|iname l IH]; intros w.
  - cbn [for_each]. unfold ret. rewrite !filter_nil. cbn [foldl map].
    rewrite app_nil_r. destruct w; reflexivity.
  - cbn [for_each]. unfold bind at 1.
    destruct (region_matches labels iname.1) eqn:Hm.
    + rewrite (annot_region_write _ _ _ hemi _ _ Hm Hh). rewrite IH.
      rewrite (filter_cons_True (fun iname : nat * string => region_matches labels iname.1 = true)) by exact Hm.
      rewrite (filter_cons_False (fun iname : nat * string => region_matches labels iname.1 = false)) by (rewrite Hm; discriminate).
      reflexivity.
    + rewrite (annot_region_skip _ _ _ _ _ Hm). rewrite IH.
      rewrite (filter_cons_False (fun iname : nat * string => region_matches labels iname.1 = true)) by (rewrite Hm; discriminate).
      rewrite (filter_cons_True (fun iname : nat * string => region_matches labels iname.1 = false)) by exact Hm.
      unfold printed. cbn [map w_bdata w_stdout]. rewrite <- app_assoc. reflexivity.
Qed.

Lemma annot_loop_no_match (labels : list Z) (vertex_data : str_or_list) (prefix : string)
    (l : list (nat * string)) (w : world BData) :
  Forall (fun iname : nat * string => region_matches labels iname.1 = false) l ->
  for_each l tt (fun _ iname => annot_region labels vertex_data prefix iname) w
  = (Ok tt, printed w (map (fun iname : nat * string => not_found_line iname.2) l)).
Proof.
  revert w. induction l as [|iname l IH]; intros w Hall.
  - cbn [for_each map]. rewrite printed_nil. reflexivity.
  - inversion Hall as [|? ? Hm Hall']; subst. cbn [for_each]. unfold bind at 1.
    rewrite (annot_region_skip _ _ _ _ _ Hm). rewrite (IH _ Hall').
    rewrite printed_printed. reflexivity.
Qed.

Lemma annot_loop_no_hemi (labels : list Z) (vertex_data : str_or_list) (prefix : string)
    (l : list (nat * string)) (w : world BData) :
  infer_hemi vertex_data = Raise ValueError ->
  Exists (fun iname : nat * string => region_matches labels iname.1 = true) l ->
  (for_each l tt (fun _ iname => annot_region labels vertex_data prefix iname) w).1
  = Raise ValueError.
Proof.
  intros Hh. revert w. induction l as [|iname l IH]; intros w Hex; [inversion Hex|].
  cbn [for_each]. unfold bind at 1.
  destruct (region_matches labels iname.1) eqn:Hm.
  - rewrite (annot_region_raise _ _ _ _ _ Hm Hh). reflexivity.
  - rewrite (annot_region_skip _ _ _ _ _ Hm). apply IH.
    inversion Hex as [? ? Hm' | ? ? Hex']; subst; [congruence | exact Hex'].
Qed.

(** A call on one annotation file runs the annotation loop on what
    [read_annot] returns. *)
Lemma add_roilabel_annot_file (lb : string) (vertex_data : str_or_list) (prefix : string)
    (verbose : bool) (w : world BData) :
  (splitext lb).2 = ".annot" ->
  add_roilabel (Str lb) vertex_data prefix verbose w
  = add_roilabel_annot (annot_labels (read_annot lb)) (annot_names (read_annot lb))
      vertex_data prefix w.
Proof.
  intros Hext. unfold add_roilabel. cbn [as_list for_each]. rewrite Hext.
  change (String.eqb ".annot" ".label") with false.
  change (String.eqb ".annot" ".annot") with true.
  cbv iota. unfold bind, ret.
  destruct (add_roilabel_annot _ _ vertex_data prefix w) as [[[]|e] w']; reflexivity.
Qed.

End AddRoilabel.

(** * The claims about add_roilabel *)

Lemma map_snd_enumerate_from {A C} (g : A -> C) (l : list A) (k : nat) :
  map (fun ix : nat * A => g ix.2) (enumerate_from k l) = map g l.
Proof.
  revert k. induction l as [|x l IH]; intros k; [reflexivity|].
  cbn [enumerate_from map snd]. rewrite IH. reflexivity.
Qed.

Lemma enumerate_matches (labels : list Z) (names : list string) :
  Exists (fun iname : nat * string => region_matches labels iname.1 = true)
         (enumerate names)
  <-> exists i name, names !! i = Some name /\ In (Z.of_nat i) labels.
Proof.
  rewrite Exists_exists. split.
  - intros ([i name] & Hin & Hm). apply list_elem_of_In, enumerate_from_lookup in Hin.
    destruct Hin as [_ Hl]. rewrite Nat.sub_0_r in Hl.
    exists i, name. split; [exact Hl | apply region_matches_In; exact Hm].
  - intros (i & name & Hl & Hin). exists (i, name). split.
    + apply list_elem_of_In, enumerate_from_lookup. split; [lia|].
      rewrite Nat.sub_0_r. exact Hl.
    + apply region_matches_In. exact Hin.
Qed.

Lemma first_match_split (labels : list Z) (l : list (nat * string)) :
  Exists (fun iname : nat * string => region_matches labels iname.1 = true) l ->
  exists skipped x rest,
    l = skipped ++ x :: rest
    /\ Forall (fun iname : nat * string => region_matches labels iname.1 = false) skipped
    /\ region_matches labels x.1 = true.
Proof.
  induction l as [|y l IH]; intros Hex; [inversion Hex|].
  destruct (region_matches labels y.1) eqn:Hy.
  - exists [], y, l. split; [reflexivity|]. split; [constructor | exact Hy].
  - inversion Hex as [? ? Hy' | ? ? Hl]; subst; [congruence|].
    destruct (IH Hl) as (skipped & x & rest & -> & Hskip & Hx).
    exists (y :: skipped), x, rest. split; [reflexivity|].
    split; [constructor; assumption | exact Hx].
Qed.

Section AddRoilabelClaims.
Context `{Collaborators}.

(** Without a hemisphere the loop stops at the first region that has a
    vertex: the regions before it are skipped with their line. *)
Lemma annot_loop_first_match (labels : list Z) (vertex_data : str_or_list)
    (prefix : string) (skipped rest : list (nat * string)) (x : nat * string)
    (w : world BData) :
  infer_hemi vertex_data = Raise ValueError ->
  Forall (fun iname : nat * string => region_matches labels iname.1 = false) skipped ->
  region_matches labels x.1 = true ->
  for_each (skipped ++ x :: rest) tt
    (fun _ iname => annot_region labels vertex_data prefix iname) w
  = (Raise ValueError,
     World (w_bdata w)
           (w_stdout w ++ map (fun iname : nat * string => not_found_line iname.2) skipped)).
Proof.
  intros Hh Hskip Hx. rewrite for_each_app. unfold bind at 1.
  rewrite (annot_loop_no_match _ vertex_data prefix _ w Hskip).
  cbn [for_each]. unfold bind at 1.
  rewrite (annot_region_raise _ _ _ _ _ Hx Hh). reflexivity.
Qed.


(** C8, as the code has it.  On an annotation file, [add_roilabel] raises
    ValueError (the InvalidConfiguration of the specification) exactly when
    the destination name holds neither "Left" nor "Right" and some named
    region has a vertex; no other exception is raised.  The hemisphere is
    "lh" when the name holds "Left", and "rh" when it holds "Right" and not
    "Left".  When it raises, it does so at the first
    region that has a vertex: the regions before it were skipped with
    their line, and nothing is written. *)
Theorem add_roilabel_raises_iff (lb : string) (vertex_data : str_or_list)
    (prefix : string) (verbose : bool) (w : world BData) :
  (splitext lb).2 = ".annot" ->
  let labels := annot_labels (read_annot lb) in
  let names := annot_names (read_annot lb) in
  let out := (add_roilabel (Str lb) vertex_data prefix verbose w).1 in
  (out = Raise ValueError
   <-> py_in "Left" vertex_data = false /\ py_in "Right" vertex_data = false
       /\ exists i name, names !! i = Some name /\ In (Z.of_nat i) labels)
  /\ (out = Ok tt \/ out = Raise ValueError)
  /\ (py_in "Left" vertex_data = true -> infer_hemi vertex_data = Ok "lh")
  /\ (py_in "Left" vertex_data = false -> py_in "Right" vertex_data = true ->
      infer_hemi vertex_data = Ok "rh")
  /\ (out = Raise ValueError ->
      exists skipped i name rest,
        enumerate names = skipped ++ (i, name) :: rest
        /\ Forall (fun iname : nat * string => ~ In (Z.of_nat iname.1) labels) skipped
        /\ In (Z.of_nat i) labels
        /\ add_roilabel (Str lb) vertex_data prefix verbose w
           = (Raise ValueError,
              World (w_bdata w)
                    (w_stdout w
                       ++ map (fun iname : nat * string => not_found_line iname.2) skipped))).
Proof.
  intros Hext labels names out.
  destruct (infer_hemi_cases vertex_data) as (Hl & Hr & Hn).
  assert (Hout : out = (add_roilabel_annot labels names vertex_data prefix w).1).
  { subst out. rewrite (add_roilabel_annot_file _ _ _ _ _ Hext). reflexivity. }
  unfold add_roilabel_annot in Hout.
  assert (Hok : forall hemi, infer_hemi vertex_data = Ok hemi -> out = Ok tt).
  { intros hemi Hh. rewrite Hout, (annot_loop_hemi _ _ _ hemi _ _ Hh). reflexivity. }
  split; [|split; [|split; [exact Hl | split; [exact Hr|]]]].
  - destruct (py_in "Left" vertex_data) eqn:HL.
    { rewrite (Hok _ (Hl eq_refl)). split; [discriminate | intros [? _]; discriminate]. }
    destruct (py_in "Right" vertex_data) eqn:HR.
    { rewrite (Hok _ (Hr eq_refl eq_refl)).
      split; [discriminate | intros (_ & ? & _); discriminate]. }
    specialize (Hn eq_refl eq_refl). rewrite <- enumerate_matches.
    destruct (decide (Exists (fun iname : nat * string =>
                                region_matches labels iname.1 = true) (enumerate names)))
      as [Hex|Hnex].
    + rewrite Hout, (annot_loop_no_hemi _ _ _ _ _ Hn Hex). tauto.
    + assert (Hall : Forall (fun iname : nat * string =>
                               region_matches labels iname.1 = false) (enumerate names)).
      { apply Forall_forall. intros iname Hin. apply not_true_iff_false. intros Hm.
        apply Hnex. apply Exists_exists. exists iname. split; assumption. }
      rewrite Hout, (annot_loop_no_match _ vertex_data prefix _ w Hall). cbn [fst].
      split; [discriminate | intros (_ & _ & Hex); contradiction].
  - destruct (py_in "Left" vertex_data) eqn:HL; [left; exact (Hok _ (Hl eq_refl))|].
    destruct (py_in "Right" vertex_data) eqn:HR;
      [left; exact (Hok _ (Hr eq_refl eq_refl))|].
    specialize (Hn eq_refl eq_refl).
    destruct (decide (Exists (fun iname : nat * string =>
                                region_matches labels iname.1 = true) (enumerate names)))
      as [Hex|Hnex].
    + right. rewrite Hout. apply (annot_loop_no_hemi _ _ _ _ _ Hn Hex).
    + left. assert (Hall : Forall (fun iname : nat * string =>
                               region_matches labels iname.1 = false) (enumerate names)).
      { apply Forall_forall. intros iname Hin. apply not_true_iff_false. intros Hm.
        apply Hnex. apply Exists_exists. exists iname. split; assumption. }
      rewrite Hout, (annot_loop_no_match _ vertex_data prefix _ w Hall). reflexivity.
  - intros Hraise.
    destruct (py_in "Left" vertex_data) eqn:HL.
    { pose proof (Hok _ (Hl eq_refl)) as Ho. congruence. }
    destruct (py_in "Right" vertex_data) eqn:HR.
    { pose proof (Hok _ (Hr eq_refl eq_refl)) as Ho. congruence. }
    specialize (Hn eq_refl eq_refl).
    destruct (decide (Exists (fun iname : nat * string =>
                                region_matches labels iname.1 = true) (enumerate names)))
      as [Hex|Hnex].
    + destruct (first_match_split labels _ Hex)
        as (skipped & [i name] & rest & Heq & Hskip & Hm).
      exists skipped, i, name, rest. split; [exact Heq|]. split; [|split].
      * apply Forall_forall. intros iname Hin Hlab.
        pose proof (proj1 (Forall_forall _ _) Hskip iname Hin) as Hno.
        apply region_matches_In in Hlab. cbv beta in Hno. congruence.
      * apply region_matches_In. exact Hm.
      * rewrite (add_roilabel_annot_file _ _ _ _ _ Hext). unfold add_roilabel_annot.
        fold labels names. rewrite Heq.
        apply (annot_loop_first_match _ _ _ _ _ _ _ Hn Hskip Hm).
    + exfalso.
      assert (Hall : Forall (fun iname : nat * string =>
                               region_matches labels iname.1 = false) (enumerate names)).
      { apply Forall_forall. intros iname Hin. apply not_true_iff_false. intros Hm.
        apply Hnex. apply Exists_exists. exists iname. split; assumption. }
      rewrite Hout, (annot_loop_no_match _ vertex_data prefix _ w Hall) in Hraise.
      discriminate.
Qed.

(** C10. In the annotation loop the test for a region without a vertex
    comes before the hemisphere is inferred.  So on an annotation file in
    which no named region has a vertex the call returns without raising,
    whatever the destination name is: it writes nothing and prints one
    line per region. *)
Theorem add_roilabel_no_match_never_raises (lb : string) (vertex_data : str_or_list)
    (prefix : string) (verbose : bool) (w : world BData) :
  (splitext lb).2 = ".annot" ->
  (forall i, i < length (annot_names (read_annot lb)) ->
             ~ In (Z.of_nat i) (annot_labels (read_annot lb))) ->
  add_roilabel (Str lb) vertex_data prefix verbose w
  = (Ok tt, World (w_bdata w)
                  (w_stdout w ++ map not_found_line (annot_names (read_annot lb)))).
Proof.
  intros Hext Hnone. rewrite (add_roilabel_annot_file _ _ _ _ _ Hext).
  unfold add_roilabel_annot. rewrite annot_loop_no_match.
  - unfold enumerate. rewrite map_snd_enumerate_from. reflexivity.
  - apply Forall_forall. intros [i name] Hin.
    apply list_elem_of_In, enumerate_from_lookup in Hin. destruct Hin as [_ Hl].
    rewrite Nat.sub_0_r in Hl. apply not_true_iff_false. intros Hm.
    apply (Hnone i); [eapply lookup_lt_Some; exact Hl | apply region_matches_In; exact Hm].
Qed.

End AddRoilabelClaims.

(** ** Runs of add_roilabel on the example annotation files *)



(** C8 as stated fails: the hemisphere cannot be inferred from
    "VertexData", and the call on [lh.none.annot] does not raise. *)
Lemma add_roilabel_no_raise_counterexample :
  let C := annot_collaborators annot_files in
  infer_hemi (Str "VertexData") = Raise ValueError
  /\ @add_roilabel C (Str "lh.none.annot") (Str "VertexData") "aparc" false (World [] [])
     = (Ok tt, World [] ["Label A not found in the surface.";
                         "Label B not found in the surface."]).
Proof.
  intros C. split; vm_compute; reflexivity.
Qed.

Lemma add_roilabel_raises_iff_witness :
  let C := annot_collaborators annot_files in
  (splitext "lh.ab.annot").2 = ".annot"
  /\ (@add_roilabel C (Str "lh.ab.annot") (Str "VertexData") "aparc" false (World [] [])).1
     = Raise ValueError.
Proof.
  intros C.
  assert (Hext : (splitext "lh.ab.annot").2 = ".annot") by reflexivity.
  refine (conj Hext _).
  pose proof (@add_roilabel_raises_iff C "lh.ab.annot" (Str "VertexData")
                "aparc" false (World [] []) Hext) as T.
  cbv zeta in T. destruct T as (T & _). apply T.
  split; [reflexivity|]. split; [reflexivity|].
  exists 0, "A". split; [reflexivity | left; reflexivity].
Defined.

Lemma add_roilabel_no_match_never_raises_witness :
  let C := annot_collaborators annot_files in
  (splitext "lh.none.annot").2 = ".annot"
  /\ (forall i, i < length (annot_names (@read_annot C "lh.none.annot")) ->
                ~ In (Z.of_nat i) (annot_labels (@read_annot C "lh.none.annot")))
  /\ @add_roilabel C (Str "lh.none.annot") (StrList ["VertexData"]) "" false (World [] [])
     = (Ok tt, World [] ["Label A not found in the surface.";
                         "Label B not found in the surface."]).
Proof.
  intros C.
  assert (Hext : (splitext "lh.none.annot").2 = ".annot") by reflexivity.
  assert (Hnone : forall i, i < length (annot_names (@read_annot C "lh.none.annot")) ->
                ~ In (Z.of_nat i) (annot_labels (@read_annot C "lh.none.annot"))).
  { intros i Hi [Hf | [Hf | []]]; simpl in Hi; lia. }
  refine (conj Hext (conj Hnone _)).
  exact (@add_roilabel_no_match_never_raises C "lh.none.annot" (StrList ["VertexData"])
           "" false (World [] []) Hext Hnone).
Defined.

(** * Further properties of the matcher *)

Lemma nonempty_or_first_empty (Ss : list xyz_array) :
  Forall (fun S => S <> []) Ss
  \/ exists good rest, Ss = good ++ [] :: rest /\ Forall (fun S => S <> []) good.
Proof.
  induction Ss as [|S Ss IH].
  - left. constructor.
  - destruct S as [|c S].
    + right. exists [], Ss. split; [reflexivity | constructor].
    + destruct IH as [Hall | (good & rest & -> & Hgood)].
      * left. constructor; [discriminate | exact Hall].
      * right. exists ((c :: S) :: good), rest. split; [reflexivity|].
        constructor; [discriminate | exact Hgood].
Qed.

(** X1. [get_roiflag] either returns or raises ValueError, and it raises
    exactly when some ROI has no coordinate.  When every ROI has one, the
    matrix holds one brute-force row per ROI and the header line and one
    line per ROI are printed.  Otherwise the lines of the ROIs up to the
    first empty one are printed before the exception. *)
Theorem get_roiflag_outcome {B} (Ss : list xyz_array) (R : xyz_array) (w : world B) :
  (Forall (fun S => S <> []) Ss
   /\ get_roiflag Ss R w
      = (Ok (map (fun S => brute_force S R) Ss), printed w (get_roiflag_lines Ss R)))
  \/ (exists good rest,
        Ss = good ++ [] :: rest
        /\ Forall (fun S => S <> []) good
        /\ get_roiflag Ss R w
           = (Raise ValueError, printed w (get_roiflag_lines (good ++ [[]]) R))).
Proof.
  destruct (nonempty_or_first_empty Ss) as [Hall | (good & rest & -> & Hgood)].
  - left. split; [exact Hall | apply get_roiflag_all_nonempty; exact Hall].
  - right. exists good, rest. split; [reflexivity|]. split; [exact Hgood|].
    apply get_roiflag_first_empty. exact Hgood.
Qed.

Lemma brute_force_ext (S S' R : xyz_array) :
  (forall c, In c S <-> In c S') -> brute_force S R = brute_force S' R.
Proof.
  intros Hiff. unfold brute_force. apply map_ext. intros r.
  destruct (existsb (array_equal r) S) eqn:HS, (existsb (array_equal r) S') eqn:HS';
    try reflexivity.
  - apply existsb_array_equal, Hiff, existsb_array_equal in HS. congruence.
  - apply existsb_array_equal, Hiff, existsb_array_equal in HS'. congruence.
Qed.

(** X2. The coordinates of an ROI count as a set: two ROIs with the same
    coordinates, in any order and with any repetition, get the same row. *)
Theorem get_roiflag_roi_as_set {B} (S S' R : xyz_array) (w w' : world B) :
  S <> [] ->
  (forall c, In c S <-> In c S') ->
  (get_roiflag [S] R w).1 = (get_roiflag [S'] R w').1.
Proof.
  intros HS Hiff.
  assert (HS' : S' <> []).
  { destruct S as [|c S]; [congruence|]. intros ->.
    apply (proj1 (Hiff c)). left. reflexivity. }
  rewrite !get_roiflag_all_nonempty by (constructor; [assumption | constructor]).
  cbn [fst map]. rewrite (brute_force_ext S S' R Hiff). reflexivity.
Qed.

Lemma get_roiflag_roi_as_set_witness :
  [(1, 0, 0); (2, 0, 0)]%Z <> []
  /\ (get_roiflag [[(1, 0, 0); (2, 0, 0)]%Z] grid3 (World tt [])).1
     = (get_roiflag [[(2, 0, 0); (1, 0, 0); (2, 0, 0)]%Z] grid3 (World tt [])).1.
Proof.
  split; [discriminate|].
  apply (get_roiflag_roi_as_set [(1, 0, 0); (2, 0, 0)]%Z [(2, 0, 0); (1, 0, 0); (2, 0, 0)]%Z).
  - discriminate.
  - intros c. simpl. tauto.
Defined.

Lemma brute_force_app_roi (S S' R : xyz_array) :
  brute_force (S ++ S') R = zip_with Z.max (brute_force S R) (brute_force S' R).
Proof.
  unfold brute_force. induction R as [|r R IH]; [reflexivity|].
  cbn [map zip_with]. rewrite IH. f_equal. rewrite existsb_app.
  destruct (existsb (array_equal r) S), (existsb (array_equal r) S'); reflexivity.
Qed.

(** X3. The row of the union of two ROIs is the entrywise maximum of their
    rows: a voxel is flagged for the union when it is flagged for one of
    the two. *)
Theorem get_roiflag_union {B} (S S' R : xyz_array) (w : world B) :
  S <> [] -> S' <> [] ->
  exists row row',
    (get_roiflag [S] R w).1 = Ok [row]
    /\ (get_roiflag [S'] R w).1 = Ok [row']
    /\ (get_roiflag [S ++ S'] R w).1 = Ok [zip_with Z.max row row'].
Proof.
  intros HS HS'. exists (brute_force S R), (brute_force S' R).
  assert (HSS : S ++ S' <> []) by (destruct S; [congruence | discriminate]).
  rewrite !get_roiflag_all_nonempty by (constructor; [assumption | constructor]).
  cbn [fst map]. rewrite brute_force_app_roi. auto.
Qed.

Lemma get_roiflag_union_witness :
  [(1, 0, 0)%Z] <> [] /\ [(2, 0, 0)%Z] <> []
  /\ (get_roiflag [[(1, 0, 0)%Z] ++ [(2, 0, 0)%Z]] grid3 (World tt [])).1
     = Ok [[0; 1; 1]%Z].
Proof.
  assert (H1 : [(1, 0, 0)%Z] <> []) by discriminate.
  assert (H2 : [(2, 0, 0)%Z] <> []) by discriminate.
  refine (conj H1 (conj H2 _)).
  destruct (get_roiflag_union [(1, 0, 0)%Z] [(2, 0, 0)%Z] grid3 (World tt []) H1 H2)
    as (row & row' & Hr & Hr' & Hu).
  rewrite Hu. injection Hr as <-. injection Hr' as <-. reflexivity.
Defined.

Lemma brute_force_app_grid (S R1 R2 : xyz_array) :
  brute_force S (R1 ++ R2) = brute_force S R1 ++ brute_force S R2.
Proof. unfold brute_force. apply map_app. Qed.

(** X4. A voxel is flagged without regard to the rest of the grid: the
    matrix for a grid made of two parts is, row by row, the row for the
    first part followed by the row for the second. *)
Theorem get_roiflag_grid_app {B} (Ss : list xyz_array) (R1 R2 : xyz_array) (w : world B) :
  Forall (fun S => S <> []) Ss ->
  exists m1 m2,
    (get_roiflag Ss R1 w).1 = Ok m1
    /\ (get_roiflag Ss R2 w).1 = Ok m2
    /\ (get_roiflag Ss (R1 ++ R2) w).1 = Ok (zip_with app m1 m2).
Proof.
  intros Hall.
  exists (map (fun S => brute_force S R1) Ss), (map (fun S => brute_force S R2) Ss).
  rewrite !get_roiflag_all_nonempty by exact Hall. cbn [fst].
  split; [reflexivity|]. split; [reflexivity|]. f_equal.
  clear Hall. induction Ss as [|S Ss IH]; [reflexivity|].
  cbn [map zip_with]. rewrite IH, brute_force_app_grid. reflexivity.
Qed.

Lemma get_roiflag_grid_app_witness :
  Forall (fun S : xyz_array => S <> []) [[(1, 0, 0)%Z]]
  /\ (get_roiflag [[(1, 0, 0)%Z]] (grid2 ++ grid3) (World tt [])).1
     = Ok [[0; 1; 0; 1; 0]%Z].
Proof.
  assert (Hall : Forall (fun S : xyz_array => S <> []) [[(1, 0, 0)%Z]])
    by (constructor; [discriminate | constructor]).
  refine (conj Hall _).
  destruct (get_roiflag_grid_app [[(1, 0, 0)%Z]] grid2 grid3 (World tt []) Hall)
    as (m1 & m2 & H1 & H2 & H12).
  rewrite H12. injection H1 as <-. injection H2 as <-. reflexivity.
Defined.

(** * Further properties of add_roimask *)

Lemma get_roiflag_bdata {B} (Ss : list xyz_array) (R : xyz_array) (w : world B) :
  w_bdata (get_roiflag Ss R w).2 = w_bdata w.
Proof.
  destruct (nonempty_or_first_empty Ss) as [Hall | (good & rest & -> & Hgood)].
  - rewrite get_roiflag_all_nonempty by exact Hall. reflexivity.
  - rewrite get_roiflag_first_empty by exact Hgood. reflexivity.
Qed.

Lemma get_roiflag_rows {B} (Ss : list xyz_array) (R : xyz_array) (w : world B)
    (m : list (list Z)) :
  (get_roiflag Ss R w).1 = Ok m -> length m = length Ss.
Proof.
  destruct (nonempty_or_first_empty Ss) as [Hall | (good & rest & -> & Hgood)].
  - rewrite get_roiflag_all_nonempty by exact Hall. intros [= <-]. apply length_map.
  - rewrite get_roiflag_first_empty by exact Hgood. discriminate.
Qed.

Lemma np_vstack_rows (rows m : list (list Z)) : np_vstack rows = Ok m -> m = rows.
Proof.
  unfold np_vstack. destruct rows as [|r rs]; [discriminate|].
  destruct (forallb _ rs); [intros [= <-]; reflexivity | discriminate].
Qed.

Section AddRoimaskMore.
Context `{Collaborators}.

(** The loading loop leaves the world as it is and, when it ends, has one
    ROI source and one array of values per mask. *)
Lemma load_roi_masks_invariant (voxel_xyz : xyz_array) (roi_mask : list string)
    (w : world BData) :
  (load_roi_masks voxel_xyz roi_mask w).2 = w
  /\ forall xs vs b, (load_roi_masks voxel_xyz roi_mask w).1 = Ok (xs, vs, b) ->
       length xs = length roi_mask /\ length vs = length roi_mask.
Proof.
  unfold load_roi_masks.
  assert (Hgen : forall (st : list (list (Z * Z * Z)) * list (list Z) * bool),
    let run := for_each roi_mask st (fun st m =>
      let '(mask_xyz_all, mask_v_all, voxel_consistency) := st in
      let mask_v := mri_v (load_mri m) in
      let mask_xyz := mri_xyz (load_mri m) in
      let mask_v_all := mask_v_all ++ [mask_v] in
      selected <- lift (roi_source mask_v mask_xyz) ;;
      let mask_xyz_all := mask_xyz_all ++ [selected] in
      same <- lift (eq_all voxel_xyz mask_xyz) ;;
      ret (mask_xyz_all, mask_v_all, if negb same then false else voxel_consistency)) w in
    run.2 = w
    /\ forall xs vs b, run.1 = Ok (xs, vs, b) ->
         length xs = length st.1.1 + length roi_mask
         /\ length vs = length st.1.2 + length roi_mask).
  { induction roi_mask as [|m l IH]; intros [[xs0 vs0] b0]; cbn zeta.
    - cbn [for_each ret fst snd length]. split; [reflexivity|].
      intros xs vs b [= <- <- <-]. lia.
    - cbn [for_each]. unfold bind at 1. unfold bind at 1. unfold lift at 1.
      destruct (roi_source (mri_v (load_mri m)) (mri_xyz (load_mri m))) as [sel|e];
        [|split; [reflexivity | discriminate]].
      unfold bind at 1. unfold lift at 1.
      destruct (eq_all voxel_xyz (mri_xyz (load_mri m))) as [same|e];
        [|split; [reflexivity | discriminate]].
      unfold ret at 1.
      specialize (IH (xs0 ++ [sel], vs0 ++ [mri_v (load_mri m)],
                      if negb same then false else b0)).
      cbn zeta in IH. destruct IH as [IHw IHl]. split; [exact IHw|].
      intros xs vs b Hrun. destruct (IHl xs vs b Hrun) as [Hx Hv].
      cbn [fst snd] in Hx, Hv |- *. rewrite length_app in Hx, Hv. cbn [length] in *. lia. }
  destruct (Hgen ([], [], true)) as [Hw Hl]. split; [exact Hw|].
  intros xs vs b Hrun. destruct (Hl xs vs b Hrun) as [Hx Hv]. cbn in Hx, Hv. lia.
Qed.

Lemma write_roi_flags_never_raises (roi_mask : list string) (roi_prefix : string)
    (brain_data : str_or_list) (roi_flag : list (list Z)) (w : world BData) :
  length roi_flag = length roi_mask ->
  (write_roi_flags roi_mask roi_prefix brain_data roi_flag w).1 = Ok tt.
Proof. intros Hlen. rewrite write_roi_flags_ok by exact Hlen. reflexivity. Qed.

(** X5. [add_roimask] writes nothing unless it succeeds: whenever it
    raises, for any arguments, the container is the one it was given.
    Every exception comes before the first column is written. *)
Theorem add_roimask_raise_writes_nothing (roi_mask : str_or_list) (roi_prefix : string)
    (brain_data : str_or_list) (xyz : list string) (return_roi_flag : bool)
    (w : world BData) (e : exn) :
  (add_roimask roi_mask roi_prefix brain_data xyz return_roi_flag w).1 = Raise e ->
  w_bdata (add_roimask roi_mask roi_prefix brain_data xyz return_roi_flag w).2 = w_bdata w.
Proof.
  remember (add_roimask roi_mask roi_prefix brain_data xyz return_roi_flag w) as r eqn:Hr.
  unfold add_roimask in Hr. unfold bind at 1 in Hr.
  pose proof (read_voxel_xyz_world brain_data xyz w) as Hread.
  destruct (read_voxel_xyz brain_data xyz w) as [[R|e1] w1]; cbn [snd] in Hread; subst w1;
    [|subst r; intros _; reflexivity].
  unfold bind at 1 in Hr.
  destruct (load_roi_masks_invariant R (as_list roi_mask) w) as [Hw Hlen].
  destruct (load_roi_masks R (as_list roi_mask) w) as [[[[xs vs] b]|e2] w2];
    cbn [fst snd] in Hw, Hlen; subst w2; [|subst r; intros _; reflexivity].
  destruct (Hlen xs vs b eq_refl) as [Hx Hv].
  unfold bind at 1 in Hr. unfold roi_flags in Hr.
  assert (Hflags : forall m wf,
            (if b then lift (np_vstack vs) else get_roiflag xs R) w = (Ok m, wf) ->
            length m = length (as_list roi_mask)).
  { intros m wf. destruct b.
    - unfold lift. intros [= Hm _]. apply np_vstack_rows in Hm. subst m. exact Hv.
    - intros Hm. rewrite <- Hx. apply (get_roiflag_rows xs R w). rewrite Hm. reflexivity. }
  assert (Hbd : w_bdata ((if b then lift (np_vstack vs) else get_roiflag xs R) w).2
                = w_bdata w).
  { destruct b; [reflexivity | apply get_roiflag_bdata]. }
  destruct ((if b then lift (np_vstack vs) else get_roiflag xs R) w) as [[m|e3] w3];
    [|subst r; intros _; exact Hbd].
  specialize (Hflags m w3 eq_refl).
  unfold bind at 1 in Hr. rewrite write_roi_flags_ok in Hr by exact Hflags.
  subst r. unfold ret. discriminate.
Qed.

(** X6. An empty list of masks is an error, not a call that does nothing:
    the consistency flag is still set, and [np.vstack] of no array raises
    ValueError. *)
Theorem add_roimask_no_mask_raises (roi_mask : str_or_list) (roi_prefix : string)
    (brain_data : str_or_list) (xyz : list string) (return_roi_flag : bool)
    (R : xyz_array) (w : world BData) :
  (read_voxel_xyz brain_data xyz w).1 = Ok R ->
  as_list roi_mask = [] ->
  add_roimask roi_mask roi_prefix brain_data xyz return_roi_flag w
  = (Raise ValueError, w).
Proof.
  intros Hread Hnil. unfold add_roimask. unfold bind at 1.
  rewrite (read_voxel_xyz_ok _ _ _ _ Hread). rewrite Hnil. reflexivity.
Qed.

(** X7. The slow path from end to end.  Take masks with as many voxels as
    the grid, one of them not on the grid, each with a voxel of value 1.
    Then [add_roimask] succeeds: it prints the lines of [get_roiflag] and
    one [Adding] line per mask, and writes one column per mask in input
    order; entry j of the column of a mask is 1 exactly when the coordinate
    of voxel j of the container is the coordinate of a voxel of value 1 of
    the mask, and 0 otherwise. *)
Theorem add_roimask_slow_path_result (roi_mask : str_or_list) (roi_prefix : string)
    (brain_data : str_or_list) (xyz : list string) (return_roi_flag : bool)
    (R : xyz_array) (w : world BData) :
  (read_voxel_xyz brain_data xyz w).1 = Ok R ->
  Forall (mask_on_grid (length R)) (as_list roi_mask) ->
  Exists (fun m => mri_xyz (load_mri m) <> R) (as_list roi_mask) ->
  Forall (fun m => In 1%Z (mri_v (load_mri m))) (as_list roi_mask) ->
  let masks := as_list roi_mask in
  let roi_flag := map (fun m => brute_force (mask_source m) R) masks in
  add_roimask roi_mask roi_prefix brain_data xyz return_roi_flag w
  = (Ok (if return_roi_flag then Some roi_flag else None),
     masks_written roi_prefix brain_data (zip masks roi_flag)
       (printed w (get_roiflag_lines (map mask_source masks) R)))
  /\ forall m j c, R !! j = Some c ->
       (brute_force (mask_source m) R !! j = Some 1%Z
        <-> exists k, mri_v (load_mri m) !! k = Some 1%Z
                      /\ mri_xyz (load_mri m) !! k = Some c)
       /\ (brute_force (mask_source m) R !! j = Some 0%Z
           <-> ~ exists k, mri_v (load_mri m) !! k = Some 1%Z
                           /\ mri_xyz (load_mri m) !! k = Some c).
Proof.
  intros Hread Hshape Hdiff Hone masks roi_flag. split.
  - rewrite (add_roimask_slow _ _ _ _ _ R w Hread Hshape Hdiff).
    unfold bind at 1. rewrite get_roiflag_all_nonempty.
    + rewrite map_map. fold masks. fold roi_flag. unfold bind at 1.
      rewrite write_roi_flags_ok by (subst roi_flag; apply length_map). reflexivity.
    + apply Forall_forall. intros S HS.
      apply list_elem_of_In, in_map_iff in HS. destruct HS as (m & <- & Hm).
      apply list_elem_of_In in Hm.
      destruct (proj1 (Forall_forall _ _) Hshape m Hm) as [Hv Hx].
      apply ones_columns_nonempty; [congruence|].
      apply (proj1 (Forall_forall _ _) Hone m Hm).
  - intros m j c Hj.
    destruct (brute_force_lookup (mask_source m) R j c Hj) as [Hyes Hno].
    unfold mask_source in *. rewrite <- ones_columns_lookup.
    destruct (decide (c ∈ ones_columns (mri_v (load_mri m)) (mri_xyz (load_mri m))))
      as [Hin|Hout].
    + apply list_elem_of_In in Hin. rewrite (Hyes Hin).
      split; split; auto; try discriminate. intros Hn. contradiction.
    + assert (Hout' : ~ In c (ones_columns (mri_v (load_mri m)) (mri_xyz (load_mri m))))
        by (intros Hin; apply Hout, list_elem_of_In; exact Hin).
      rewrite (Hno Hout'). split; split; auto; try discriminate. intros Hin. contradiction.
Qed.

Lemma ones_columns_nil (v : list Z) (xyz : xyz_array) :
  ~ In 1%Z v -> ones_columns v xyz = [].
Proof.
  revert xyz. induction v as [|x v IH]; intros [|c xyz] Hno; try reflexivity.
  cbn [ones_columns]. destruct (Z.eqb_spec x 1) as [->|Hne].
  - exfalso. apply Hno. left. reflexivity.
  - apply IH. intros Hin. apply Hno. right. exact Hin.
Qed.

(** X8. A mask file without any voxel of value 1 stops the slow path: when
    the masks have the size of the grid and one of them is not on the
    grid, [add_roimask] raises the ValueError of [get_roiflag] and writes
    no column, not even for the masks that have voxels of value 1. *)
Theorem add_roimask_empty_source_raises (roi_mask : str_or_list) (roi_prefix : string)
    (brain_data : str_or_list) (xyz : list string) (return_roi_flag : bool)
    (R : xyz_array) (w : world BData) :
  (read_voxel_xyz brain_data xyz w).1 = Ok R ->
  Forall (mask_on_grid (length R)) (as_list roi_mask) ->
  Exists (fun m => mri_xyz (load_mri m) <> R) (as_list roi_mask) ->
  Exists (fun m => ~ In 1%Z (mri_v (load_mri m))) (as_list roi_mask) ->
  (add_roimask roi_mask roi_prefix brain_data xyz return_roi_flag w).1 = Raise ValueError
  /\ w_bdata (add_roimask roi_mask roi_prefix brain_data xyz return_roi_flag w).2
     = w_bdata w.
Proof.
  intros Hread Hshape Hdiff Hnone.
  rewrite (add_roimask_slow _ _ _ _ _ R w Hread Hshape Hdiff).
  assert (Hex : Exists (fun S : xyz_array => S = []) (map mask_source (as_list roi_mask))).
  { apply Exists_exists in Hnone. destruct Hnone as (m & Hm & Hno).
    apply Exists_exists. exists (mask_source m). split.
    - apply list_elem_of_In, in_map. apply list_elem_of_In. exact Hm.
    - apply ones_columns_nil. exact Hno. }
  destruct (Exists_first_empty _ Hex) as (good & rest & Heq & Hgood).
  unfold bind at 1 3. rewrite Heq, (get_roiflag_first_empty good rest R w Hgood).
  split; reflexivity.
Qed.

(** X9. The argument [xyz] must hold the names of the three coordinate
    columns: with fewer than three names [add_roimask] raises IndexError,
    and nothing is printed or written. *)
Theorem add_roimask_short_xyz_raises (roi_mask : str_or_list) (roi_prefix : string)
    (brain_data : str_or_list) (xyz : list string) (return_roi_flag : bool)
    (w : world BData) :
  length xyz < 3 ->
  add_roimask roi_mask roi_prefix brain_data xyz return_roi_flag w
  = (Raise IndexError, w).
Proof.
  intros Hlen. unfold add_roimask, read_voxel_xyz, bind, get_bdata, lift, getitem.
  destruct xyz as [|x [|y [|z rest]]]; cbn in Hlen |- *; try reflexivity. lia.
Qed.

End AddRoimaskMore.

Lemma add_roimask_raise_writes_nothing_witness :
  let C := mask_collaborators mask_files in
  let w := world_of_grid grid2 in
  (@add_roimask C (StrList ["same.nii"; "cropped.nii"]) "roi" default_brain_data
     default_xyz true w).1 = Raise AttributeError
  /\ w_bdata (@add_roimask C (StrList ["same.nii"; "cropped.nii"]) "roi" default_brain_data
                default_xyz true w).2 = bdata_of_grid grid2.
Proof.
  intros C w.
  assert (Hr : (@add_roimask C (StrList ["same.nii"; "cropped.nii"]) "roi"
                  default_brain_data default_xyz true w).1 = Raise AttributeError)
    by reflexivity.
  refine (conj Hr _).
  exact (@add_roimask_raise_writes_nothing C _ _ _ _ _ w AttributeError Hr).
Defined.

Lemma add_roimask_no_mask_raises_witness :
  let C := mask_collaborators mask_files in
  let w := world_of_grid grid2 in
  (@read_voxel_xyz C default_brain_data default_xyz w).1 = Ok grid2
  /\ as_list (StrList []) = []
  /\ @add_roimask C (StrList []) "roi" default_brain_data default_xyz false w
     = (Raise ValueError, w).
Proof.
  intros C w.
  assert (Hread : (@read_voxel_xyz C default_brain_data default_xyz w).1 = Ok grid2)
    by reflexivity.
  refine (conj Hread (conj eq_refl _)).
  exact (@add_roimask_no_mask_raises C (StrList []) "roi" default_brain_data default_xyz
           false grid2 w Hread eq_refl).
Defined.

Lemma add_roimask_slow_path_result_witness :
  let C := mask_collaborators mask_files in
  let w := world_of_grid grid2 in
  let roi_mask := StrList ["same.nii"; "swapped.nii"] in
  (@read_voxel_xyz C default_brain_data default_xyz w).1 = Ok grid2
  /\ Forall (@mask_on_grid C (length grid2)) (as_list roi_mask)
  /\ Exists (fun m => mri_xyz (@load_mri C m) <> grid2) (as_list roi_mask)
  /\ Forall (fun m => In 1%Z (mri_v (@load_mri C m))) (as_list roi_mask)
  /\ @add_roimask C roi_mask "roi" default_brain_data default_xyz true w
     = (Ok (Some [[1; 0]; [1; 0]]%Z),
        World (bdata_of_grid grid2
                 ++ [Column "roi_same" [1; 0]%Z "1 = ROI roi_same" default_brain_data;
                     Column "roi_swapped" [1; 0]%Z "1 = ROI roi_swapped" default_brain_data])
              ["EPI voxel size 2"; "getROIflag: ROI1 (Voxel Size 1)";
               "getROIflag: ROI2 (Voxel Size 1)"; "Adding roi_same"; "Adding roi_swapped"]).
Proof.
  intros C w roi_mask.
  assert (Hread : (@read_voxel_xyz C default_brain_data default_xyz w).1 = Ok grid2)
    by reflexivity.
  assert (Hshape : Forall (@mask_on_grid C (length grid2)) (as_list roi_mask))
    by (repeat constructor).
  assert (Hdiff : Exists (fun m => mri_xyz (@load_mri C m) <> grid2) (as_list roi_mask))
    by (right; left; discriminate).
  assert (Hone : Forall (fun m => In 1%Z (mri_v (@load_mri C m))) (as_list roi_mask)).
  { constructor; [left; reflexivity|]. constructor; [right; left; reflexivity|]. constructor. }
  refine (conj Hread (conj Hshape (conj Hdiff (conj Hone _)))).
  pose proof (@add_roimask_slow_path_result C roi_mask "roi" default_brain_data default_xyz
                true grid2 w Hread Hshape Hdiff Hone) as T.
  cbv zeta in T. destruct T as [T _]. rewrite T. vm_compute. reflexivity.
Defined.

Lemma add_roimask_empty_source_raises_witness :
  let C := mask_collaborators more_mask_files in
  let w := world_of_grid grid2 in
  let roi_mask := StrList ["same.nii"; "none.nii"] in
  (@read_voxel_xyz C default_brain_data default_xyz w).1 = Ok grid2
  /\ Forall (@mask_on_grid C (length grid2)) (as_list roi_mask)
  /\ Exists (fun m => mri_xyz (@load_mri C m) <> grid2) (as_list roi_mask)
  /\ Exists (fun m => ~ In 1%Z (mri_v (@load_mri C m))) (as_list roi_mask)
  /\ (@add_roimask C roi_mask "roi" default_brain_data default_xyz true w).1
     = Raise ValueError.
Proof.
  intros C w roi_mask.
  assert (Hread : (@read_voxel_xyz C default_brain_data default_xyz w).1 = Ok grid2)
    by reflexivity.
  assert (Hshape : Forall (@mask_on_grid C (length grid2)) (as_list roi_mask))
    by (repeat constructor).
  assert (Hdiff : Exists (fun m => mri_xyz (@load_mri C m) <> grid2) (as_list roi_mask))
    by (right; left; discriminate).
  assert (Hnone : Exists (fun m => ~ In 1%Z (mri_v (@load_mri C m))) (as_list roi_mask)).
  { right. left. intros [Hf | [Hf | []]]; discriminate. }
  refine (conj Hread (conj Hshape (conj Hdiff (conj Hnone _)))).
  exact (proj1 (@add_roimask_empty_source_raises C roi_mask "roi" default_brain_data
                  default_xyz true grid2 w Hread Hshape Hdiff Hnone)).
Defined.

Lemma add_roimask_short_xyz_raises_witness :
  let C := mask_collaborators mask_files in
  length ["voxel_x"; "voxel_y"] < 3
  /\ @add_roimask C (Str "same.nii") "roi" default_brain_data ["voxel_x"; "voxel_y"] false
       (world_of_grid grid2)
     = (Raise IndexError, world_of_grid grid2).
Proof.
  intros C.
  assert (Hlen : length ["voxel_x"; "voxel_y"] < 3) by (simpl; lia).
  refine (conj Hlen _).
  exact (@add_roimask_short_xyz_raises C (Str "same.nii") "roi" default_brain_data
           ["voxel_x"; "voxel_y"] false (world_of_grid grid2) Hlen).
Defined.

(** * Further properties of add_roilabel *)

Lemma label_flag_step (v : Z) (vindex : list Z) (g : Z -> Z) :
  zip_with (fun f vi => if (vi =? v)%Z then 1%Z else f) (map g vindex) vindex
  = map (fun vi => if (vi =? v)%Z then 1%Z else g vi) vindex.
Proof.
  induction vindex as [|vi vs IHv]; [reflexivity|].
  cbn [map zip_with]. rewrite IHv. reflexivity.
Qed.

Lemma label_flag_foldl (roi_vertex vindex : list Z) (g : Z -> Z) :
  foldl (fun roi_flag v =>
           zip_with (fun f vi => if (vi =? v)%Z then 1%Z else f) roi_flag vindex)
        (map g vindex) roi_vertex
  = map (fun vi => if existsb (Z.eqb vi) roi_vertex then 1%Z else g vi) vindex.
Proof.
  revert g. induction roi_vertex as [|v l IH]; intros g; cbn [foldl existsb].
  - reflexivity.
  - pose proof (label_flag_step v vindex g) as Hstep.
    rewrite Hstep, IH. apply map_ext. intros vi.
    destruct (vi =? v)%Z; [|reflexivity].
    destruct (existsb (Z.eqb vi) l); reflexivity.
Qed.

Lemma label_flag_lookup (roi_vertex vindex : list Z) (j : nat) (vi : Z) :
  vindex !! j = Some vi ->
  (label_flag roi_vertex vindex !! j = Some 1%Z <-> In vi roi_vertex)
  /\ (label_flag roi_vertex vindex !! j = Some 0%Z <-> ~ In vi roi_vertex).
Proof.
  intros Hj. unfold label_flag. rewrite lookup_map, Hj. cbn [fmap option_fmap option_map].
  destruct (existsb (Z.eqb vi) roi_vertex) eqn:Hex.
  - apply existsb_exists in Hex. destruct Hex as (x & Hx & Heq).
    apply Z.eqb_eq in Heq. subst x.
    split; split; auto; try discriminate. intros Hn. contradiction.
  - assert (Hno : ~ In vi roi_vertex).
    { intros Hin. apply not_true_iff_false in Hex. apply Hex.
      apply existsb_exists. exists vi. split; [exact Hin | apply Z.eqb_refl]. }
    split; split; auto; try discriminate. intros Hin. contradiction.
Qed.

Section AddRoilabelMore.
Context `{Collaborators}.

Lemma add_roilabel_file_result (label : string) (vertex_data : str_or_list)
    (prefix : string) (verbose : bool) (w : world BData) :
  let roi_name := prefix +:+ "_" +:+ remove_all ".label" (basename label) in
  add_roilabel_file label vertex_data prefix verbose w
  = (Ok tt,
     World (add_metadata (w_bdata w) roi_name
              (label_flag (read_label label)
                          (get_metadata (w_bdata w) "vertex_index" vertex_data))
              ("1 = ROI " +:+ roi_name) vertex_data)
           (w_stdout w ++ (if verbose then ["Adding " +:+ label] else []))).
Proof.
  intros roi_name. unfold add_roilabel_file, bind, get_bdata, bdata_add_metadata.
  pose proof (label_flag_foldl (read_label label)
                (get_metadata (w_bdata w) "vertex_index" vertex_data) (fun _ => 0%Z)) as Hf.
  assert (Hz : forall l : list Z, replicate (length l) 0%Z = map (fun _ => 0%Z) l).
  { intros l. induction l as [|x l IH]; [reflexivity | cbn; rewrite IH; reflexivity]. }
  rewrite <- Hz in Hf.
  destruct verbose; unfold print, ret; cbn [w_bdata w_stdout]; rewrite Hf;
    [reflexivity|]. rewrite app_nil_r. destruct w; reflexivity.
Qed.

(** X10. A label file never makes [add_roilabel] raise.  It writes one
    column with one entry per vertex of the container's [vertex_index]:
    the entry is 1 when the label file lists that vertex and 0 otherwise.
    Vertices of the label that the container does not have are ignored,
    and a label without any vertex of the container still gets its column,
    all zeros.  A line is printed only when [verbose] is set. *)
Theorem add_roilabel_label_file (lb : string) (vertex_data : str_or_list)
    (prefix : string) (verbose : bool) (w : world BData) :
  (splitext lb).2 = ".label" ->
  let vindex := get_metadata (w_bdata w) "vertex_index" vertex_data in
  let roi_flag := label_flag (read_label lb) vindex in
  let roi_name := prefix +:+ "_" +:+ remove_all ".label" (basename lb) in
  add_roilabel (Str lb) vertex_data prefix verbose w
  = (Ok tt,
     World (add_metadata (w_bdata w) roi_name roi_flag ("1 = ROI " +:+ roi_name) vertex_data)
           (w_stdout w ++ (if verbose then ["Adding " +:+ lb] else [])))
  /\ length roi_flag = length vindex
  /\ (forall j vi, vindex !! j = Some vi ->
        (roi_flag !! j = Some 1%Z <-> In vi (read_label lb))
        /\ (roi_flag !! j = Some 0%Z <-> ~ In vi (read_label lb)))
  /\ ((forall vi, In vi (read_label lb) -> ~ In vi vindex) ->
      roi_flag = replicate (length vindex) 0%Z).
Proof.
  intros Hext vindex roi_flag roi_name. split; [|split; [|split]].
  - unfold add_roilabel. cbn [as_list for_each]. rewrite Hext.
    change (String.eqb ".label" ".label") with true. cbv iota.
    unfold bind at 1. rewrite add_roilabel_file_result. reflexivity.
  - apply length_map.
  - intros j vi Hj. apply label_flag_lookup. exact Hj.
  - intros Hdisj. subst roi_flag. unfold label_flag.
    induction vindex as [|vi vs IH]; [reflexivity|].
    cbn [map length replicate]. rewrite IH by (intros v Hv Hin; apply (Hdisj v Hv); right; exact Hin).
    f_equal. destruct (existsb (Z.eqb vi) (read_label lb)) eqn:Hex; [|reflexivity].
    apply existsb_exists in Hex. destruct Hex as (x & Hx & Heq).
    apply Z.eqb_eq in Heq. subst x. exfalso. apply (Hdisj vi Hx). left. reflexivity.
Qed.

(** X11. The files of a list are processed in turn: a call on a list made
    of two parts does what a call on the first part followed by a call on
    the second does, and stops where the first one raises. *)
Theorem add_roilabel_app (l1 l2 : list string) (vertex_data : str_or_list)
    (prefix : string) (verbose : bool) (w : world BData) :
  add_roilabel (StrList (l1 ++ l2)) vertex_data prefix verbose w
  = (add_roilabel (StrList l1) vertex_data prefix verbose ;;;
     add_roilabel (StrList l2) vertex_data prefix verbose) w.
Proof.
  unfold add_roilabel. cbn [as_list]. rewrite for_each_app.
  unfold bind.
  destruct (for_each l1 tt _ w) as [[[]|e] w1]; reflexivity.
Qed.

(** X12. A file whose extension is neither [.label] nor [.annot] raises
    TypeError when its turn comes.  The files before it have been
    processed and their columns stay in the container; the files after it
    are not read. *)
Theorem add_roilabel_unknown_extension (pre post : list string) (lb : string)
    (vertex_data : str_or_list) (prefix : string) (verbose : bool)
    (w w1 : world BData) :
  (splitext lb).2 <> ".label" ->
  (splitext lb).2 <> ".annot" ->
  add_roilabel (StrList pre) vertex_data prefix verbose w = (Ok tt, w1) ->
  add_roilabel (StrList (pre ++ lb :: post)) vertex_data prefix verbose w
  = (Raise TypeError, w1).
Proof.
  intros Hl Ha Hpre. unfold add_roilabel in *. cbn [as_list] in *.
  rewrite for_each_app. unfold bind at 1. rewrite Hpre. cbn [for_each].
  apply String.eqb_neq in Hl, Ha. rewrite Hl, Ha. reflexivity.
Qed.

Lemma annot_loop_no_hemi_bdata (labels : list Z) (vertex_data : str_or_list)
    (prefix : string) (l : list (nat * string)) (w : world BData) :
  infer_hemi vertex_data = Raise ValueError ->
  w_bdata (for_each l tt (fun _ iname => annot_region labels vertex_data prefix iname) w).2
  = w_bdata w.
Proof.
  intros Hh. revert w. induction l as [|iname l IH]; intros w; [reflexivity|].
  cbn [for_each]. unfold bind at 1.
  destruct (region_matches labels iname.1) eqn:Hm.
  - rewrite (annot_region_raise _ _ _ _ _ Hm Hh). reflexivity.
  - rewrite (annot_region_skip _ _ _ _ _ Hm). rewrite IH. reflexivity.
Qed.

(** X13. With the default [vertex_data], the list ['VertexData'], the
    hemisphere test is a membership test on the list and finds neither
    'Left' nor 'Right'.  So a call that leaves [vertex_data] out raises
    ValueError on every annotation file in which a named region has a
    vertex, and writes no column. *)
Theorem add_roilabel_default_vertex_data (lb : string) (prefix : string)
    (verbose : bool) (w : world BData) (i : nat) (name : string) :
  (splitext lb).2 = ".annot" ->
  annot_names (read_annot lb) !! i = Some name ->
  In (Z.of_nat i) (annot_labels (read_annot lb)) ->
  (add_roilabel (Str lb) default_vertex_data prefix verbose w).1 = Raise ValueError
  /\ w_bdata (add_roilabel (Str lb) default_vertex_data prefix verbose w).2 = w_bdata w.
Proof.
  intros Hext Hname Hin. rewrite (add_roilabel_annot_file _ _ _ _ _ Hext).
  unfold add_roilabel_annot. split.
  - apply annot_loop_no_hemi; [reflexivity|].
    apply enumerate_matches. exists i, name. split; assumption.
  - apply annot_loop_no_hemi_bdata. reflexivity.
Qed.

(** X14. Without a hemisphere in [vertex_data], an annotation file never
    adds a column, whether the call raises or not. *)
Theorem add_roilabel_no_hemi_writes_nothing (lb : string) (vertex_data : str_or_list)
    (prefix : string) (verbose : bool) (w : world BData) :
  (splitext lb).2 = ".annot" ->
  py_in "Left" vertex_data = false ->
  py_in "Right" vertex_data = false ->
  w_bdata (add_roilabel (Str lb) vertex_data prefix verbose w).2 = w_bdata w.
Proof.
  intros Hext HL HR. rewrite (add_roilabel_annot_file _ _ _ _ _ Hext).
  unfold add_roilabel_annot. apply annot_loop_no_hemi_bdata.
  unfold infer_hemi. rewrite HL, HR. reflexivity.
Qed.

End AddRoilabelMore.

Lemma add_roilabel_label_file_witness :
  let C := label_collaborators in
  let w := World (bdata_of_vertices (Str "VertexLeft") [1; 3; 4; 5]%Z) [] in
  (splitext "/subj/label/lh.V1.label").2 = ".label"
  /\ @add_roilabel C (Str "/subj/label/lh.V1.label") (Str "VertexLeft") "roi" true w
     = (Ok tt,
        World (bdata_of_vertices (Str "VertexLeft") [1; 3; 4; 5]%Z
                 ++ [Column "roi_lh.V1" [0; 1; 0; 1]%Z "1 = ROI roi_lh.V1" (Str "VertexLeft")])
              ["Adding /subj/label/lh.V1.label"]).
Proof.
  intros C w.
  assert (Hext : (splitext "/subj/label/lh.V1.label").2 = ".label") by reflexivity.
  refine (conj Hext _).
  pose proof (@add_roilabel_label_file C "/subj/label/lh.V1.label" (Str "VertexLeft")
                "roi" true w Hext) as T.
  cbv zeta in T. destruct T as [T _]. rewrite T. vm_compute. reflexivity.
Defined.

Lemma add_roilabel_unknown_extension_witness :
  let C := label_collaborators in
  let w := World (bdata_of_vertices (Str "VertexLeft") [1; 3; 4; 5]%Z) [] in
  let w1 := World (bdata_of_vertices (Str "VertexLeft") [1; 3; 4; 5]%Z
                     ++ [Column "roi_lh.V1" [0; 1; 0; 1]%Z "1 = ROI roi_lh.V1"
                                (Str "VertexLeft")]) [] in
  (splitext "lh.V2.label.gz").2 <> ".label"
  /\ (splitext "lh.V2.label.gz").2 <> ".annot"
  /\ @add_roilabel C (StrList ["lh.V1.label"]) (Str "VertexLeft") "roi" false w = (Ok tt, w1)
  /\ @add_roilabel C (StrList (["lh.V1.label"] ++ "lh.V2.label.gz" :: ["lh.ab.annot"]))
       (Str "VertexLeft") "roi" false w
     = (Raise TypeError, w1).
Proof.
  intros C w w1.
  assert (Hl : (splitext "lh.V2.label.gz").2 <> ".label") by discriminate.
  assert (Ha : (splitext "lh.V2.label.gz").2 <> ".annot") by discriminate.
  assert (Hpre : @add_roilabel C (StrList ["lh.V1.label"]) (Str "VertexLeft") "roi" false w
                 = (Ok tt, w1)) by reflexivity.
  refine (conj Hl (conj Ha (conj Hpre _))).
  exact (@add_roilabel_unknown_extension C ["lh.V1.label"] ["lh.ab.annot"] "lh.V2.label.gz"
           (Str "VertexLeft") "roi" false w w1 Hl Ha Hpre).
Defined.

Lemma add_roilabel_default_vertex_data_witness :
  let C := annot_collaborators annot_files in
  (splitext "lh.ab.annot").2 = ".annot"
  /\ annot_names (@read_annot C "lh.ab.annot") !! 0 = Some "A"
  /\ In (Z.of_nat 0) (annot_labels (@read_annot C "lh.ab.annot"))
  /\ (@add_roilabel C (Str "lh.ab.annot") default_vertex_data "" false (World [] [])).1
     = Raise ValueError.
Proof.
  intros C.
  assert (Hext : (splitext "lh.ab.annot").2 = ".annot") by reflexivity.
  assert (Hname : annot_names (@read_annot C "lh.ab.annot") !! 0 = Some "A") by reflexivity.
  assert (Hin : In (Z.of_nat 0) (annot_labels (@read_annot C "lh.ab.annot")))
    by (left; reflexivity).
  refine (conj Hext (conj Hname (conj Hin _))).
  exact (proj1 (@add_roilabel_default_vertex_data C "lh.ab.annot" "" false (World [] [])
                  0 "A" Hext Hname Hin)).
Defined.

Lemma add_roilabel_no_hemi_writes_nothing_witness :
  let C := annot_collaborators annot_files in
  (splitext "lh.ab.annot").2 = ".annot"
  /\ py_in "Left" (Str "left_vertices") = false
  /\ py_in "Right" (Str "left_vertices") = false
  /\ w_bdata (@add_roilabel C (Str "lh.ab.annot") (Str "left_vertices") "" false
                (World [] [])).2 = [].
Proof.
  intros C.
  assert (Hext : (splitext "lh.ab.annot").2 = ".annot") by reflexivity.
  assert (HL : py_in "Left" (Str "left_vertices") = false) by reflexivity.
  assert (HR : py_in "Right" (Str "left_vertices") = false) by reflexivity.
  refine (conj Hext (conj HL (conj HR _))).
  exact (@add_roilabel_no_hemi_writes_nothing C "lh.ab.annot" (Str "left_vertices") ""
           false (World [] []) Hext HL HR).
Defined.

(** * Column names *)

Lemma string_app_cons (a : ascii) (s t : string) : String a s +:+ t = String a (s +:+ t).
Proof. reflexivity. Qed.

Lemma string_app_nil_l (t : string) : "" +:+ t = t.
Proof. reflexivity. Qed.

Lemma string_app_nil_r (s : string) : s +:+ "" = s.
Proof.
  induction s as [|a s IH]; [reflexivity|]. rewrite string_app_cons, IH. reflexivity.
Qed.

Lemma string_app_assoc (s t u : string) : (s +:+ t) +:+ u = s +:+ (t +:+ u).
Proof.
  induction s as [|a s IH]; [reflexivity|]. rewrite !string_app_cons, IH. reflexivity.
Qed.

Lemma string_length_app (s t : string) :
  String.length (s +:+ t) = String.length s + String.length t.
Proof.
  induction s as [|a s IH]; [reflexivity|].
  rewrite string_app_cons. cbn [String.length]. rewrite IH. reflexivity.
Qed.

Lemma substring_all (s : string) : String.substring 0 (String.length s) s = s.
Proof.
  induction s as [|a s IH]; [reflexivity|].
  cbn [String.length String.substring]. rewrite IH. reflexivity.
Qed.

Lemma drop_string_app (s t : string) : drop_string (String.length s) (s +:+ t) = t.
Proof.
  unfold drop_string. rewrite string_length_app.
  replace (String.length s + String.length t - String.length s) with (String.length t) by lia.
  induction s as [|a s IH]; [apply substring_all|].
  rewrite string_app_cons. cbn [String.length String.substring]. exact IH.
Qed.

Lemma has_char_app (c : ascii) (s t : string) :
  has_char c (s +:+ t) = has_char c s || has_char c t.
Proof.
  induction s as [|a s IH]; [reflexivity|]. rewrite string_app_cons. cbn [has_char].
  rewrite IH, orb_assoc. reflexivity.
Qed.

Lemma rfind_no_char (c : ascii) (s : string) : has_char c s = false -> rfind c s = None.
Proof.
  induction s as [|a s IH]; [reflexivity|]. cbn [has_char rfind]. intros Hno.
  apply orb_false_iff in Hno. destruct Hno as [Ha Hs]. rewrite (IH Hs), Ha. reflexivity.
Qed.

Lemma rfind_last (c : ascii) (s t : string) :
  has_char c t = false -> rfind c (s +:+ String c t) = Some (String.length s).
Proof.
  intros Hno. induction s as [|a s IH].
  - rewrite string_app_nil_l. cbn [rfind String.length].
    rewrite (rfind_no_char c t Hno), Ascii.eqb_refl. reflexivity.
  - rewrite string_app_cons. cbn [rfind String.length]. rewrite IH. reflexivity.
Qed.

Lemma basename_join (d n : string) :
  has_char "/" n = false -> basename (d +:+ "/" +:+ n) = n.
Proof.
  intros Hno. unfold basename.
  change ("/" +:+ n) with (String "/" n).
  rewrite (rfind_last "/" d n Hno).
  replace (d +:+ String "/" n) with ((d +:+ "/") +:+ n)
    by (rewrite string_app_assoc; reflexivity).
  replace (S (String.length d)) with (String.length (d +:+ "/"))
    by (rewrite string_length_app; cbn [String.length]; lia).
  apply drop_string_app.
Qed.

Lemma basename_plain (n : string) : has_char "/" n = false -> basename n = n.
Proof. intros Hno. unfold basename. rewrite (rfind_no_char _ _ Hno). reflexivity. Qed.

Lemma remove_all_skip (c0 : ascii) (old n t : string) :
  has_char c0 n = false ->
  remove_all (String c0 old) (n +:+ t) = n +:+ remove_all (String c0 old) t.
Proof.
  unfold remove_all. induction n as [|a n IH]; intros Hno; [reflexivity|].
  cbn [has_char] in Hno. apply orb_false_iff in Hno. destruct Hno as [Ha Hn].
  rewrite !string_app_cons. cbn [remove_all_from String.prefix].
  destruct (ascii_dec c0 a) as [->|_].
  - rewrite Ascii.eqb_refl in Ha. discriminate.
  - rewrite (IH Hn). reflexivity.
Qed.

Lemma mask_stem_name (n ext : string) :
  has_char "." n = false ->
  remove_all ".nii" (remove_all ".nii.gz" ext) = "" ->
  remove_all ".nii" (remove_all ".nii.gz" (n +:+ ext)) = n.
Proof.
  intros Hno Hext.
  rewrite (remove_all_skip "." "nii.gz" n ext Hno).
  rewrite (remove_all_skip "." "nii" n _ Hno). rewrite Hext. apply string_app_nil_r.
Qed.

(** X15. Take a mask path whose base name is a stem without dot or slash
    followed by a rest without slash, in any directory or in none.  Its
    column is named by the prefix, an underscore, the stem and what is
    left of the rest once every occurrence of [.nii.gz] and then of [.nii]
    is removed from it, wherever it stands.  So the stem followed by
    [.nii] or by [.nii.gz] gives the prefix, an underscore and the stem,
    whatever the directory. *)
Theorem mask_column_name (roi_prefix d n t : string) :
  has_char "/" n = false ->
  has_char "." n = false ->
  has_char "/" t = false ->
  let rest := remove_all ".nii" (remove_all ".nii.gz" t) in
  roi_name_of_mask roi_prefix (d +:+ "/" +:+ n +:+ t) = roi_prefix +:+ "_" +:+ n +:+ rest
  /\ roi_name_of_mask roi_prefix (n +:+ t) = roi_prefix +:+ "_" +:+ n +:+ rest
  /\ (t = ".nii" \/ t = ".nii.gz" ->
      roi_name_of_mask roi_prefix (d +:+ "/" +:+ n +:+ t) = roi_prefix +:+ "_" +:+ n
      /\ roi_name_of_mask roi_prefix (n +:+ t) = roi_prefix +:+ "_" +:+ n).
Proof.
  intros Hslash Hdot Ht rest.
  assert (Hnt : has_char "/" (n +:+ t) = false)
    by (rewrite has_char_app, Hslash, Ht; reflexivity).
  assert (Hname : remove_all ".nii" (remove_all ".nii.gz" (n +:+ t)) = n +:+ rest).
  { rewrite (remove_all_skip "." "nii.gz" n t Hdot).
    rewrite (remove_all_skip "." "nii" n _ Hdot). reflexivity. }
  assert (Hdir : roi_name_of_mask roi_prefix (d +:+ "/" +:+ n +:+ t)
                 = roi_prefix +:+ "_" +:+ n +:+ rest).
  { unfold roi_name_of_mask. rewrite (basename_join d _ Hnt), Hname. reflexivity. }
  assert (Hplain : roi_name_of_mask roi_prefix (n +:+ t)
                   = roi_prefix +:+ "_" +:+ n +:+ rest).
  { unfold roi_name_of_mask. rewrite (basename_plain _ Hnt), Hname. reflexivity. }
  split; [exact Hdir|]. split; [exact Hplain|].
  intros Hsuffix. rewrite Hdir, Hplain.
  assert (Hrest : rest = "") by (subst rest; destruct Hsuffix as [-> | ->]; reflexivity).
  rewrite Hrest, string_app_nil_r. split; reflexivity.
Qed.

Lemma mask_column_name_witness :
  has_char "/" "V1" = false
  /\ has_char "." "V1" = false
  /\ has_char "/" ".nii.gz.bak" = false
  /\ roi_name_of_mask "roi" ("/data/rois" +:+ "/" +:+ "V1" +:+ ".nii.gz.bak") = "roi_V1.bak".
Proof.
  assert (Hs : has_char "/" "V1" = false) by reflexivity.
  assert (Hd : has_char "." "V1" = false) by reflexivity.
  assert (Ht : has_char "/" ".nii.gz.bak" = false) by reflexivity.
  refine (conj Hs (conj Hd (conj Ht _))).
  exact (proj1 (mask_column_name "roi" "/data/rois" "V1" ".nii.gz.bak" Hs Hd Ht)).
Defined.

(** * ROIs that cover the grid or miss it *)

(** X16. An ROI that holds every coordinate of the grid flags every
    voxel: the row is all ones.  In particular the matcher run on the grid
    itself returns the all-ones row. *)
Theorem get_roiflag_covering {B} (S R : xyz_array) (w : world B) :
  S <> [] ->
  (forall c, In c R -> In c S) ->
  (get_roiflag [S] R w).1 = Ok [replicate (length R) 1%Z].
Proof.
  intros HS Hcov.
  rewrite get_roiflag_all_nonempty by (constructor; [exact HS | constructor]).
  cbn [fst map]. do 2 f_equal. unfold brute_force.
  induction R as [|r R IH]; [reflexivity|].
  cbn [map length replicate]. rewrite IH by (intros c Hc; apply Hcov; right; exact Hc).
  rewrite (proj2 (existsb_array_equal r S)) by (apply Hcov; left; reflexivity).
  reflexivity.
Qed.

Lemma get_roiflag_covering_witness :
  grid3 <> [] /\ (forall c, In c grid3 -> In c grid3)
  /\ (get_roiflag [grid3] grid3 (World tt [])).1 = Ok [[1; 1; 1]%Z].
Proof.
  assert (HS : grid3 <> []) by discriminate.
  assert (Hcov : forall c : Z * Z * Z, In c grid3 -> In c grid3) by (intros c Hc; exact Hc).
  refine (conj HS (conj Hcov _)).
  exact (get_roiflag_covering grid3 grid3 (World tt []) HS Hcov).
Defined.

(** X17. An ROI that has coordinates, none of them on the grid, is not an
    error: the row is all zeros. *)
Theorem get_roiflag_disjoint {B} (S R : xyz_array) (w : world B) :
  S <> [] ->
  (forall c, In c R -> ~ In c S) ->
  (get_roiflag [S] R w).1 = Ok [replicate (length R) 0%Z].
Proof.
  intros HS Hdis.
  rewrite get_roiflag_all_nonempty by (constructor; [exact HS | constructor]).
  cbn [fst map]. do 2 f_equal. unfold brute_force.
  induction R as [|r R IH]; [reflexivity|].
  cbn [map length replicate]. rewrite IH by (intros c Hc; apply Hdis; right; exact Hc).
  destruct (existsb (array_equal r) S) eqn:Hex; [|reflexivity].
  apply existsb_array_equal in Hex. exfalso. apply (Hdis r); [left; reflexivity | exact Hex].
Qed.

Lemma get_roiflag_disjoint_witness :
  [(7, 7, 7)%Z] <> []
  /\ (forall c, In c grid3 -> ~ In c [(7, 7, 7)%Z])
  /\ (get_roiflag [[(7, 7, 7)%Z]] grid3 (World tt [])).1 = Ok [[0; 0; 0]%Z].
Proof.
  assert (HS : [(7, 7, 7)%Z] <> []) by discriminate.
  assert (Hdis : forall c : Z * Z * Z, In c grid3 -> ~ In c [(7, 7, 7)%Z]).
  { intros c [<- | [<- | [<- | []]]] [Hf | []]; discriminate. }
  refine (conj HS (conj Hdis _)).
  exact (get_roiflag_disjoint [(7, 7, 7)%Z] grid3 (World tt []) HS Hdis).
Defined.
